(** * StockAgent: the tool functions of [utilities.py]

    A shallow embedding of [get_closing_prices] and [get_stock_news]
    together with the parts of the Python runtime they rely on (JSON
    values, slicing, the [datetime] calendar, the [requests] call), and
    the properties of the news aggregation routine. *)

From Stdlib Require Import ZArith Ascii String List Lia.
From stdpp Require Import base decidable option list sorting gmap strings pretty.

Local Set Warnings "-register-all".
Local Open Scope string_scope.
Local Open Scope list_scope.
Local Open Scope Z_scope.

(** ** Python values *)

(** What [response.json()] can produce.  A [str] is the string of its
    UTF-8 bytes (concatenation and equality commute with the encoding);
    a float is carried as its bits and never inspected. *)
Inductive pyval : Type :=
  | PyNone
  | PyBool (b : bool)
  | PyInt (z : Z)
  | PyFloat (bits : Z)
  | PyStr (s : string)
  | PyList (l : list pyval)
  | PyDict (d : gmap string pyval).

(** [type(v).__name__] *)
Definition type_name (v : pyval) : string :=
  match v with
  | PyNone => "NoneType"
  | PyBool _ => "bool"
  | PyInt _ => "int"
  | PyFloat _ => "float"
  | PyStr _ => "str"
  | PyList _ => "list"
  | PyDict _ => "dict"
  end.

(** Exceptions that the modelled code can meet. All of them derive from
    Python's [Exception]. *)
Inductive exn : Type :=
  | RequestException (detail : string)   (* requests.get: connection, timeout *)
  | HTTPError (status : Z)               (* response.raise_for_status() *)
  | JSONDecodeError                      (* response.json() on a non-JSON body *)
  | NotSliceable (ty : string)           (* data[:n] on a value without slices *)
  | NoAttribute (ty attr : string)       (* AttributeError *)
  | KeyError (key : string)
  | DateOverflow                         (* OverflowError of datetime arithmetic *)
  | NotAnException.                      (* TypeError: exceptions must derive
                                            from BaseException *)

Inductive outcome (A : Type) : Type :=
  | Return (a : A)
  | Raise (e : exn).
Arguments Return {A} a.
Arguments Raise {A} e.

(** What the interpreter supplies and the code only passes on: [str(v)]
    for floats and containers, [str(e)] for an exception, and the Unicode
    case mapping [s.upper()] of a [str] with characters outside ASCII. *)
Class PyRuntime := {
  str_other : pyval -> string;
  str_exn : exn -> string;
  unicode_upper : string -> string
}.

(** ** Strings *)

(** The case mapping of ASCII: [a] to [z] become [A] to [Z], every other
    character stays. *)
Definition upper_ascii (c : ascii) : ascii :=
  let n := nat_of_ascii c in
  if ((97 <=? n) && (n <=? 122))%nat then ascii_of_nat (n - 32) else c.

Fixpoint ascii_upper (s : string) : string :=
  match s with
  | EmptyString => EmptyString
  | String c s' => String (upper_ascii c) (ascii_upper s')
  end.

(** A [str] of ASCII characters only: in UTF-8, every byte below 128. *)
Fixpoint is_ascii (s : string) : bool :=
  match s with
  | EmptyString => true
  | String c s' => (nat_of_ascii c <? 128)%nat && is_ascii s'
  end.

(** The characters of a [str]: in UTF-8 a character is a byte that is not
    a continuation byte ([10xxxxxx]) followed by its continuation bytes. *)
Definition continuation (c : ascii) : bool :=
  let n := nat_of_ascii c in ((128 <=? n) && (n <? 192))%nat.

Definition starts_inside (s : string) : bool :=
  match s with
  | String c _ => continuation c
  | EmptyString => false
  end.

Fixpoint code_points (s : string) : list string :=
  match s with
  | EmptyString => []
  | String c s' =>
      match code_points s' with
      | h :: t =>
          if starts_inside s' then String c h :: t
          else String c EmptyString :: h :: t
      | [] => [String c EmptyString]
      end
  end.

(** Truth value of an optional string: [None] and [""] are false. *)
Definition truthy (key : option string) : bool :=
  match key with
  | None => false
  | Some EmptyString => false
  | Some (String _ _) => true
  end.

(** ** Slices *)

(** Number of elements of [x[:k]] when [len(x) = len]: a negative bound
    counts from the end, and the bound is clamped to [0 .. len]. *)
Definition slice_stop (len : nat) (k : Z) : nat :=
  Z.to_nat (if k <? 0 then Z.max 0 (k + Z.of_nat len) else Z.min k (Z.of_nat len)).

Definition py_slice_to {A : Type} (l : list A) (k : Z) : list A :=
  take (slice_stop (List.length l) k) l.

(** ** The calendar of [datetime] *)

Record datetime : Type := {
  year : Z; month : Z; day : Z;
  hour : Z; minute : Z; second : Z; microsecond : Z
}.

Definition MAXORDINAL : Z := 3652059.   (* date(9999, 12, 31).toordinal() *)

Definition DAYS_IN_MONTH : list Z :=
  [-1; 31; 28; 31; 30; 31; 30; 31; 31; 30; 31; 30; 31].
Definition DAYS_BEFORE_MONTH : list Z :=
  [-1; 0; 31; 59; 90; 120; 151; 181; 212; 243; 273; 304; 334].

Definition table (t : list Z) (i : Z) : Z := nth (Z.to_nat i) t 0.

Definition is_leap (y : Z) : bool :=
  (y mod 4 =? 0) && (negb (y mod 100 =? 0) || (y mod 400 =? 0)).

Definition days_before_year (y : Z) : Z :=
  let y := y - 1 in y * 365 + y / 4 - y / 100 + y / 400.

Definition days_in_month (y m : Z) : Z :=
  if (m =? 2) && is_leap y then 29 else table DAYS_IN_MONTH m.

Definition days_before_month (y m : Z) : Z :=
  table DAYS_BEFORE_MONTH m + (if (2 <? m) && is_leap y then 1 else 0).

Definition ymd2ord (y m d : Z) : Z :=
  days_before_year y + days_before_month y m + d.

Definition DI400Y : Z := 146097.
Definition DI100Y : Z := 36524.
Definition DI4Y : Z := 1461.

(** Month and day of the [n]-th day (from 0) of a year. *)
Definition month_day (n : Z) (leapyear : bool) : Z * Z :=
  let month := Z.shiftr (n + 50) 5 in
  let preceding :=
    table DAYS_BEFORE_MONTH month + (if (2 <? month) && leapyear then 1 else 0) in
  if n <? preceding then
    let month := month - 1 in
    let preceding :=
      preceding - (table DAYS_IN_MONTH month
                   + (if (month =? 2) && leapyear then 1 else 0)) in
    (month, n - preceding + 1)
  else (month, n - preceding + 1).

Definition ord2ymd (n : Z) : Z * Z * Z :=
  let n := n - 1 in
  let n400 := n / DI400Y in
  let n := n mod DI400Y in
  let y := n400 * 400 + 1 in
  let n100 := n / DI100Y in
  let n := n mod DI100Y in
  let n4 := n / DI4Y in
  let n := n mod DI4Y in
  let n1 := n / 365 in
  let n := n mod 365 in
  let y := y + n100 * 100 + n4 * 4 + n1 in
  if (n1 =? 4) || (n100 =? 4) then (y - 1, 12, 31)
  else
    let leapyear := (n1 =? 3) && (negb (n4 =? 24) || (n100 =? 3)) in
    let '(m, d) := month_day n leapyear in
    (y, m, d).

Definition toordinal (t : datetime) : Z := ymd2ord (year t) (month t) (day t).

(** [t - timedelta(days=n)]: the date moves, the time of day stays. *)
Definition sub_days (t : datetime) (n : Z) : outcome datetime :=
  let o := toordinal t - n in
  if (0 <? o) && (o <=? MAXORDINAL) then
    let '(y, m, d) := ord2ymd o in
    Return {| year := y; month := m; day := d;
              hour := hour t; minute := minute t; second := second t;
              microsecond := microsecond t |}
  else Raise DateOverflow.

Definition digit (n : Z) : ascii := ascii_of_nat (48 + Z.to_nat (n mod 10)).

Definition digits2 (n : Z) : string :=
  String (digit (n / 10)) (String (digit n) EmptyString).

Definition digits4 (n : Z) : string :=
  String (digit (n / 1000)) (String (digit (n / 100)) (digits2 n)).

(** [t.strftime('%Y-%m-%d')] *)
Definition strftime_ymd (t : datetime) : string :=
  digits4 (year t) +:+ "-" +:+ digits2 (month t) +:+ "-" +:+ digits2 (day t).

(** The invariant of a [datetime] object. *)
Definition valid_datetime (t : datetime) : Prop :=
  1 <= year t <= 9999 /\ 1 <= month t <= 12
  /\ 1 <= day t <= days_in_month (year t) (month t).

(** ** The world outside the program *)

Record request : Type := {
  req_method : string;
  req_url : string;
  req_params : list (string * string);
  req_headers : list (string * string);
  req_timeout : Z                       (* seconds *)
}.

(** A received HTTP response; [json_body] is [None] when the body is not
    JSON. *)
Record response : Type := {
  status_code : Z;
  json_body : option pyval
}.

Inductive http_result : Type :=
  | Fails (detail : string)             (* no response: the call raises *)
  | Responds (r : response).

(** The table returned by [yfinance]: one row per timestamp, named
    columns of prices (each a float, carried as its bits). *)
Record dataframe : Type := {
  df_index : list Z;
  df_columns : list (string * list Z)
}.

(** The system clock (the [n]-th reading), the news provider and the
    price provider. *)
Record world : Type := {
  clock : nat -> datetime;
  network : request -> http_result;
  yf_history : string -> string -> string -> dataframe
}.

(** What a run has done so far. *)
Record state : Type := {
  clock_reads : nat;
  http_log : list request
}.

Definition initial : state := {| clock_reads := 0; http_log := [] |}.

(** ** Computations: read the world, thread the state, return or raise *)

Definition py (A : Type) : Type := world -> state -> outcome A * state.

Definition ret {A : Type} (a : A) : py A := fun _ s => (Return a, s).

Definition raise {A : Type} (e : exn) : py A := fun _ s => (Raise e, s).

Definition bind {A B : Type} (m : py A) (k : A -> py B) : py B :=
  fun w s =>
    match m w s with
    | (Return a, s') => k a w s'
    | (Raise e, s') => (Raise e, s')
    end.

Definition lift {A : Type} (o : outcome A) : py A := fun _ s => (o, s).

(** [try: body except Exception as e: handler e] *)
Definition try_except {A : Type} (body : py A) (handler : exn -> py A) : py A :=
  fun w s =>
    match body w s with
    | (Return a, s') => (Return a, s')
    | (Raise e, s') => handler e w s'
    end.

Declare Scope py_scope.
Delimit Scope py_scope with py.
Notation "x <- m ;; k" := (bind m (fun x => k))
  (at level 100, m at next level, right associativity) : py_scope.
Notation "m ;;; k" := (bind m (fun _ => k))
  (at level 100, right associativity) : py_scope.

(** [datetime.now()] *)
Definition now : py datetime :=
  fun w s =>
    (Return (clock w (clock_reads s)),
     {| clock_reads := S (clock_reads s); http_log := http_log s |}).

(** [requests.get(url, params=params, headers=headers, timeout=timeout)] *)
Definition requests_get (url : string) (params headers : list (string * string))
    (timeout : Z) : py response :=
  fun w s =>
    let r := {| req_method := "GET"; req_url := url; req_params := params;
                req_headers := headers; req_timeout := timeout |} in
    let s' := {| clock_reads := clock_reads s; http_log := http_log s ++ [r] |} in
    match network w r with
    | Fails detail => (Raise (RequestException detail), s')
    | Responds resp => (Return resp, s')
    end.

(** [response.raise_for_status()] *)
Definition raise_for_status (r : response) : outcome unit :=
  if (400 <=? status_code r) && (status_code r <? 600)
  then Raise (HTTPError (status_code r))
  else Return tt.

(** [response.json()] *)
Definition json (r : response) : outcome pyval :=
  match json_body r with
  | Some v => Return v
  | None => Raise JSONDecodeError
  end.

(** ** Price history *)

(** [hist.empty]: an axis of length 0. *)
Definition df_empty (hist : dataframe) : bool :=
  match df_index hist, df_columns hist with
  | [], _ | _, [] => true
  | _, _ => false
  end.

(** [hist[col]] *)
Definition df_getitem (hist : dataframe) (col : string) : outcome (list Z) :=
  match list_find (fun c => c.1 = col) (df_columns hist) with
  | Some (_, (_, values)) => Return values
  | None => Raise (KeyError col)
  end.

(** [series.to_dict()], as the pairs of the series. *)
Definition to_dict (index values : list Z) : list (Z * Z) := zip index values.

(** [get_closing_prices]: the [Close] column of the history, or, on an
    empty history, [raise {"error": ...}].  A dict is not an exception:
    the [raise] statement itself fails with a [TypeError]. *)
Definition get_closing_prices (ticker period interval : string)
    : py (list (Z * Z)) :=
  fun w =>
    let hist := yf_history w ticker period interval in
    (if negb (df_empty hist) then
       close <- lift (df_getitem hist "Close") ;;
       ret (to_dict (df_index hist) close)
     else
       raise NotAnException)%py w.

(** ** News *)

(** A normalized record [{'source': ..., 'content': ...}]. The source is
    whatever the provider sent; the content is text. *)
Record news_item : Type := {
  source : pyval;
  content : string
}.

(** What [get_stock_news] hands back: the mapping [{"error": msg}] or
    the list of records. *)
Inductive news_result : Type :=
  | ErrorDict (error : string)
  | NewsList (news : list news_item).

Definition url : string := "https://finnhub.io/api/v1/company-news".

(** [item.get(key, dflt)] *)
Definition get (item : pyval) (key : string) (dflt : pyval) : outcome pyval :=
  match item with
  | PyDict d => Return (default dflt (d !! key))
  | _ => Raise (NoAttribute (type_name item) "get")
  end.

(** [data[:target_count]], as the list of the items the loop visits. *)
Definition slice (data : pyval) (target_count : Z) : outcome (list pyval) :=
  match data with
  | PyList l => Return (py_slice_to l target_count)
  | PyStr s => Return (PyStr <$> py_slice_to (code_points s) target_count)
  | _ => Raise (NotSliceable (type_name data))
  end.

(** The second loop: keep an item when its content is not in [seen]. *)
Definition dedup_step (acc : gset string * list news_item) (item : news_item)
    : gset string * list news_item :=
  let '(seen, unique_news) := acc in
  if decide (content item ∈ seen) then (seen, unique_news)
  else ({[content item]} ∪ seen, unique_news ++ [item]).

Definition dedup (all_news : list news_item) : list news_item :=
  (foldl dedup_step (∅, []) all_news).2.

Section News.
Context `{!PyRuntime}.

(** [s.upper()].  On ASCII text it is the ASCII case mapping; on any
    other text it is the Unicode case mapping of the interpreter. *)
Definition upper (s : string) : string :=
  if is_ascii s then ascii_upper s else unicode_upper s.

(** [str(v)], as an f-string renders a field. *)
Definition py_str (v : pyval) : string :=
  match v with
  | PyStr s => s
  | PyNone => "None"
  | PyBool true => "True"
  | PyBool false => "False"
  | PyInt z => pretty z
  | _ => str_other v
  end.

(** The body of the first loop. *)
Definition news_of (item : pyval) : outcome news_item :=
  match get item "headline" (PyStr "") with
  | Raise e => Raise e
  | Return headline =>
      match get item "summary" (PyStr "") with
      | Raise e => Raise e
      | Return summary =>
          let content := py_str headline +:+ ". " +:+ py_str summary in
          match get item "source" (PyStr "Finnhub") with
          | Raise e => Raise e
          | Return src => Return {| source := src; content := content |}
          end
      end
  end.

(** [for item in items: all_news.append(...)] *)
Fixpoint for_items (items : list pyval) (all_news : list news_item)
    : outcome (list news_item) :=
  match items with
  | [] => Return all_news
  | item :: rest =>
      match news_of item with
      | Raise e => Raise e
      | Return n => for_items rest (all_news ++ [n])
      end
  end.

(** From the emptiness test to the final slice. *)
Definition finish (all_news : list news_item) (target_count : Z) : news_result :=
  match all_news with
  | [] => ErrorDict
      "No news found for the given stock symbol. Check if the symbol is correct."
  | _ => NewsList (py_slice_to (dedup all_news) target_count)
  end.

(** The body of the [try]. *)
Definition fetch (params headers : list (string * string)) (target_count : Z)
    : py (list news_item) :=
  (response <- requests_get url params headers 10 ;;
   lift (raise_for_status response) ;;;
   data <- lift (json response) ;;
   items <- lift (slice data target_count) ;;
   lift (for_items items []))%py.

(** [get_stock_news], the function under the [@tool] decorator.  The key
    defaults to an environment variable that may be unset, hence the
    option.  The two dates are computed before the [try]; whatever the
    [try] block raises is handed back as an error value. *)
Definition get_stock_news (stock_symbol : string) (finnhub_key : option string)
    (target_count : Z) : py news_result :=
  let stock_symbol := upper stock_symbol in
  if truthy finnhub_key then
    (to_now <- now ;;
     let to_date := strftime_ymd to_now in
     from_now <- now ;;
     from_day <- lift (sub_days from_now 7) ;;
     let from_date := strftime_ymd from_day in
     let headers := [("X-Finnhub-Token", default "" finnhub_key)] in
     let params :=
       [("symbol", stock_symbol); ("from", from_date); ("to", to_date)] in
     r <- try_except
            (all_news <- fetch params headers target_count ;; ret (inr all_news))
            (fun e => ret (inl (ErrorDict
               ("Error fetching news from Finnhub: " +:+ str_exn e)))) ;;
     match r with
     | inl early => ret early
     | inr all_news => ret (finish all_news target_count)
     end)%py
  else
    ret (ErrorDict "Finnhub API key is required to fetch stock news.").

(** *** The routine without its last slice

    [get_stock_news] with [return unique_news] as its last line. *)

Definition finish_noslice (all_news : list news_item) : news_result :=
  match all_news with
  | [] => ErrorDict
      "No news found for the given stock symbol. Check if the symbol is correct."
  | _ => NewsList (dedup all_news)
  end.

Definition get_stock_news_noslice (stock_symbol : string)
    (finnhub_key : option string) (target_count : Z) : py news_result :=
  let stock_symbol := upper stock_symbol in
  if truthy finnhub_key then
    (to_now <- now ;;
     let to_date := strftime_ymd to_now in
     from_now <- now ;;
     from_day <- lift (sub_days from_now 7) ;;
     let from_date := strftime_ymd from_day in
     let headers := [("X-Finnhub-Token", default "" finnhub_key)] in
     let params :=
       [("symbol", stock_symbol); ("from", from_date); ("to", to_date)] in
     r <- try_except
            (all_news <- fetch params headers target_count ;; ret (inr all_news))
            (fun e => ret (inl (ErrorDict
               ("Error fetching news from Finnhub: " +:+ str_exn e)))) ;;
     match r with
     | inl early => ret early
     | inr all_news => ret (finish_noslice all_news)
     end)%py
  else
    ret (ErrorDict "Finnhub API key is required to fetch stock news.").

(** *** Vocabulary of the properties *)

(** The text a field contributes to the content: nothing when the key
    is missing. *)
Definition field (d : gmap string pyval) (key : string) : string :=
  match d !! key with
  | Some v => py_str v
  | None => ""
  end.

(** The record a raw item (a JSON object) is normalized to. *)
Definition record_of (d : gmap string pyval) : news_item :=
  {| source := default (PyStr "Finnhub") (d !! "source");
     content := field d "headline" +:+ ". " +:+ field d "summary" |}.

(** [all_news] holds the normalized items of [items], in order. *)
Definition normalized (items : list pyval) (all_news : list news_item) : Prop :=
  Forall2 (fun item n => news_of item = Return n) items all_news.

(** What the [try] block makes of a received response. *)
Definition process (r : response) (target_count : Z) : outcome (list news_item) :=
  match raise_for_status r with
  | Raise e => Raise e
  | Return _ =>
      match json r with
      | Raise e => Raise e
      | Return data =>
          match slice data target_count with
          | Raise e => Raise e
          | Return items => for_items items []
          end
      end
  end.

(** What the caller gets once the request has been answered by [h]. *)
Definition answer (h : http_result) (target_count : Z) : news_result :=
  let fetch_error e := ErrorDict ("Error fetching news from Finnhub: " +:+ str_exn e) in
  match h with
  | Fails detail => fetch_error (RequestException detail)
  | Responds r =>
      match process r target_count with
      | Raise e => fetch_error e
      | Return all_news => finish all_news target_count
      end
  end.

End News.

(** The request of [get_stock_news]. *)
Definition company_news_request (symbol key from_date to_date : string) : request :=
  {| req_method := "GET";
     req_url := "https://finnhub.io/api/v1/company-news";
     req_params := [("symbol", symbol); ("from", from_date); ("to", to_date)];
     req_headers := [("X-Finnhub-Token", key)];
     req_timeout := 10 |}.

(** Between [s] and [s'] one request, [req], was issued, and the provider
    answered it with [r]. *)
Definition answered (w : world) (s s' : state) (req : request) (r : response) : Prop :=
  http_log s' = http_log s ++ [req] /\ network w req = Responds r.

(** The provider's answer is a success carrying the JSON value [data]. *)
Definition success_with (r : response) (data : pyval) : Prop :=
  raise_for_status r = Return tt /\ json_body r = Some data.

(** The readings of the system clock are [datetime] objects, later than
    the first week of the calendar: seven days can be subtracted. *)
Definition clock_ok (w : world) : Prop :=
  forall n, valid_datetime (clock w n) /\ 7 < toordinal (clock w n).

(** A decimal digit, and the shape [YYYY-MM-DD]. *)
Definition is_digit (c : ascii) : bool :=
  let n := nat_of_ascii c in ((48 <=? n) && (n <=? 57))%nat.

Definition iso_date (s : string) : bool :=
  match list_ascii_of_string s with
  | [y1; y2; y3; y4; h1; m1; m2; h2; d1; d2] =>
      forallb is_digit [y1; y2; y3; y4; m1; m2; d1; d2]
      && bool_decide (h1 = "-"%char) && bool_decide (h2 = "-"%char)
  | _ => false
  end.

(** ** First occurrences *)

(** Position [i] of [l] holds an item whose content occurs at no earlier
    position. *)
Definition first_seen_at (l : list news_item) (i : nat) : Prop :=
  exists x, l !! i = Some x /\
    forall j y, (j < i)%nat -> l !! j = Some y -> content y <> content x.

(** [out] is [l] restricted to its first occurrences: the positions [idx]
    it was taken from increase, and are exactly those seen first. *)
Definition first_occurrences (l out : list news_item) : Prop :=
  exists idx : list nat,
    StronglySorted lt idx
    /\ (forall i, i ∈ idx <-> first_seen_at l i)
    /\ Forall2 (fun i x => l !! i = Some x) idx out.

(** Invariant of the second loop after the items [l]. *)
Definition dedup_inv (l : list news_item)
    (acc : gset string * list news_item) : Prop :=
  (forall c, c ∈ acc.1 <-> c ∈ content <$> l)
  /\ (forall c, c ∈ content <$> acc.2 <-> c ∈ content <$> l)
  /\ NoDup (content <$> acc.2)
  /\ first_occurrences l acc.2.

(** ** Vocabulary of the calendar properties *)

(** The [n]-th day of a year, as month and day, counts back to [n]. *)
Definition month_day_ok (n : Z) (leapyear : bool) : Prop :=
  let md := month_day n leapyear in
  1 <= md.1 <= 12 /\ 1 <= md.2 <= 31
  /\ table DAYS_BEFORE_MONTH md.1
     + (if (2 <? md.1) && leapyear then 1 else 0) + md.2 = n + 1.

#[local] Instance month_day_ok_dec n leapyear : Decision (month_day_ok n leapyear).
Proof. unfold month_day_ok. apply _. Defined.

Definition digit_value (c : ascii) : Z := Z.of_nat (nat_of_ascii c) - 48.

(** Reading a date back from its [YYYY-MM-DD] text. *)
Definition read_ymd (s : string) : option (Z * Z * Z) :=
  match list_ascii_of_string s with
  | [y1; y2; y3; y4; _; m1; m2; _; d1; d2] =>
      if iso_date s then
        Some (1000 * digit_value y1 + 100 * digit_value y2
              + 10 * digit_value y3 + digit_value y4,
              10 * digit_value m1 + digit_value m2,
              10 * digit_value d1 + digit_value d2)
      else None
  | _ => None
  end.

(** ** Sample inputs *)

(** An interpreter for the samples: fixed renderings; the samples are
    ASCII text, on which [unicode_upper] is never consulted. *)
Definition sample_runtime : PyRuntime :=
  {| str_other := fun _ => "<value>"; str_exn := fun _ => "<exception>";
     unicode_upper := fun s => s |}.

(** 3 November 2026, 09:30. *)
Definition sample_time : datetime :=
  {| year := 2026; month := 11; day := 3;
     hour := 9; minute := 30; second := 0; microsecond := 0 |}.

Definition sample_response (data : pyval) : response :=
  {| status_code := 200; json_body := Some data |}.

(** A world whose news provider answers every request with [data], and
    whose price provider knows no ticker. *)
Definition sample_world (data : pyval) : world :=
  {| clock := fun _ => sample_time;
     network := fun _ => Responds (sample_response data);
     yf_history := fun _ _ _ => {| df_index := []; df_columns := [] |} |}.

Definition sample_request : request :=
  company_news_request "AAPL" "k" "2026-10-27" "2026-11-03".

(** A raw item with a headline and a summary only. *)
Definition raw (headline summary : string) : gmap string pyval :=
  {[ "headline" := PyStr headline; "summary" := PyStr summary ]}.

Definition record (headline summary : string) : news_item :=
  {| source := PyStr "Finnhub"; content := headline +:+ ". " +:+ summary |}.

Definition three_items : pyval :=
  PyList [PyDict (raw "A" "a"); PyDict (raw "B" "b"); PyDict (raw "C" "c")].

Definition five_items : pyval :=
  PyList [PyDict (raw "A" "a"); PyDict (raw "B" "b"); PyDict (raw "C" "c");
          PyDict (raw "D" "d"); PyDict (raw "E" "e")].

(** ** Price history as a mapping *)

(** [hist.to_dict()]: for each column the pairs of its series. *)
Definition df_to_dict (hist : dataframe) : list (string * list (Z * Z)) :=
  (fun c => (c.1, to_dict (df_index hist) c.2)) <$> df_columns hist.

(** [get_stock_history], the function under the [@tool] decorator. *)
Definition get_stock_history (ticker period interval : string)
    : py (list (string * list (Z * Z))) :=
  fun w =>
    let hist := yf_history w ticker period interval in
    ret (df_to_dict hist) w.

(** ** More vocabulary and sample inputs *)

(** Between [s] and [s'] one request, [req], was issued, and its fate was
    [h]: an answer, or a failure of the call. *)
Definition asked (w : world) (s s' : state) (req : request) (h : http_result) : Prop :=
  http_log s' = http_log s ++ [req] /\ network w req = h.

(** A world with the clock [clk] whose news provider treats every request
    as [h], and whose price provider returns [hist] for every ticker. *)
Definition world_of (clk : nat -> datetime) (h : http_result) (hist : dataframe)
    : world :=
  {| clock := clk; network := fun _ => h; yf_history := fun _ _ _ => hist |}.

Definition no_history : dataframe := {| df_index := []; df_columns := [] |}.

(** Two monthly rows with an opening and a closing price. *)
Definition sample_history : dataframe :=
  {| df_index := [1756684800; 1759276800];
     df_columns := [("Open", [230; 255]); ("Close", [254; 270])] |}.

(** 3 January of the year 1: fewer than seven days into the calendar. *)
Definition first_days (n : nat) : datetime :=
  {| year := 1; month := 1; day := 3;
     hour := 0; minute := 0; second := 0; microsecond := 0 |}.

(** Midnight passes between the first reading and the second. *)
Definition around_midnight (n : nat) : datetime :=
  match n with
  | O => {| year := 2026; month := 11; day := 3;
            hour := 23; minute := 59; second := 59; microsecond := 999999 |}
  | _ => {| year := 2026; month := 11; day := 4;
            hour := 0; minute := 0; second := 0; microsecond := 0 |}
  end.

(** * Properties *)

(** ** The second loop keeps the first occurrences *)

Lemma first_seen_at_lt l i : first_seen_at l i → (i < List.length l)%nat.
Proof. intros (x & Hx & _). by eapply lookup_lt_Some. Qed.

Lemma first_seen_at_app_l l k i :
  (i < List.length l)%nat → first_seen_at (l ++ k) i ↔ first_seen_at l i.
Proof.
  intros Hi. unfold first_seen_at. rewrite lookup_app_l by done.
  split; intros (x & Hx & Hfirst); exists x; (split; [done|]);
    intros j y Hj Hy; apply (Hfirst j y Hj).
  - rewrite lookup_app_l by lia. done.
  - rewrite lookup_app_l in Hy by lia. done.
Qed.

Lemma first_seen_at_snoc l x :
  first_seen_at (l ++ [x]) (List.length l) ↔ content x ∉ content <$> l.
Proof.
  unfold first_seen_at. rewrite list_lookup_middle by done. split.
  - intros (x' & [= <-] & Hfirst) (y & Hc & Hy)%list_elem_of_fmap.
    apply list_elem_of_lookup in Hy as [j Hj].
    apply (Hfirst j y); [by eapply lookup_lt_Some| |done].
    by apply lookup_app_l_Some.
  - intros Hnew. exists x. split; [done|]. intros j y Hj Hy Hc.
    rewrite lookup_app_l in Hy by done. apply Hnew.
    rewrite <- Hc. apply list_elem_of_fmap_2. by eapply list_elem_of_lookup_2.
Qed.

Lemma dedup_inv_nil : dedup_inv [] (∅, []).
Proof.
  split; [|split; [|split]]; simpl.
  - intros c. by rewrite elem_of_empty, elem_of_nil.
  - done.
  - constructor.
  - exists []. split; [constructor|]. split; [|constructor].
    intros i. rewrite elem_of_nil. split; [done|]. by intros (x & Hx & _).
Qed.

Lemma dedup_inv_step l acc x :
  dedup_inv l acc → dedup_inv (l ++ [x]) (dedup_step acc x).
Proof.
  destruct acc as [seen uniq]. intros (Hseen & Hcont & Hnd & idx & Hsort & Hidx & Hat).
  simpl in *. unfold dedup_step. case_decide as Hin.
  - (* a content seen before: nothing is kept *)
    assert (content x ∈ content <$> l) as Hold by by apply Hseen.
    split; [|split; [|split]]; simpl.
    + intros c. rewrite fmap_app, elem_of_app, Hseen. simpl.
      rewrite list_elem_of_singleton. split; [by left|by intros [?| ->]].
    + intros c. rewrite fmap_app, elem_of_app, Hcont. simpl.
      rewrite list_elem_of_singleton. split; [by left|by intros [?| ->]].
    + done.
    + exists idx. split; [done|]. split.
      * intros i. rewrite Hidx. split.
        -- intros Hi. apply first_seen_at_app_l; [by apply first_seen_at_lt|done].
        -- intros Hi. pose proof (first_seen_at_lt _ _ Hi) as Hlt.
           rewrite length_app in Hlt. simpl in Hlt.
           destruct (decide (i = List.length l)) as [->|Hne].
           ++ by apply first_seen_at_snoc in Hi.
           ++ apply first_seen_at_app_l in Hi; [done|lia].
      * eapply Forall2_impl; [done|]. intros i y Hy. by apply lookup_app_l_Some.
  - (* a new content: the item is appended *)
    assert (content x ∉ content <$> l) as Hnew by by rewrite <- Hseen.
    split; [|split; [|split]]; simpl.
    + intros c. rewrite fmap_app, elem_of_app, elem_of_union, Hseen. simpl.
      rewrite elem_of_singleton, list_elem_of_singleton. tauto.
    + intros c. rewrite !fmap_app, !elem_of_app, Hcont. done.
    + rewrite fmap_app. apply NoDup_app. split; [done|]. split.
      * intros c Hc. rewrite Hcont in Hc. simpl.
        rewrite list_elem_of_singleton. by intros ->.
      * simpl. apply NoDup_singleton.
    + exists (idx ++ [List.length l]). split; [|split].
      * apply StronglySorted_app. split; [|split].
        -- intros i j Hi Hj. apply list_elem_of_singleton in Hj as ->.
           apply first_seen_at_lt. by apply Hidx.
        -- done.
        -- repeat constructor.
      * intros i. rewrite elem_of_app, list_elem_of_singleton, Hidx. split.
        -- intros [Hi| ->].
           ++ apply first_seen_at_app_l; [by apply first_seen_at_lt|done].
           ++ by apply first_seen_at_snoc.
        -- intros Hi. pose proof (first_seen_at_lt _ _ Hi) as Hlt.
           rewrite length_app in Hlt. simpl in Hlt.
           destruct (decide (i = List.length l)) as [->|Hne]; [by right|left].
           apply first_seen_at_app_l in Hi; [done|lia].
      * apply Forall2_app.
        -- eapply Forall2_impl; [done|]. intros i y Hy. by apply lookup_app_l_Some.
        -- repeat constructor. by apply list_lookup_middle.
Qed.

Lemma dedup_inv_loop l : dedup_inv l (foldl dedup_step (∅, []) l).
Proof.
  induction l as [|x l IH] using rev_ind; [apply dedup_inv_nil|].
  rewrite foldl_snoc. by apply dedup_inv_step.
Qed.

Lemma dedup_first_occurrences l : first_occurrences l (dedup l).
Proof. apply (dedup_inv_loop l). Qed.

Lemma dedup_contents l c : c ∈ content <$> dedup l ↔ c ∈ content <$> l.
Proof. apply (dedup_inv_loop l). Qed.

Lemma dedup_NoDup l : NoDup (content <$> dedup l).
Proof. apply (dedup_inv_loop l). Qed.

Lemma first_occurrences_length l out :
  first_occurrences l out → (List.length out ≤ List.length l)%nat.
Proof.
  intros (idx & Hsort & Hidx & Hat).
  rewrite <- (Forall2_length _ _ _ Hat).
  assert (NoDup idx) as Hnd.
  { clear -Hsort. induction Hsort as [|i idx _ IH Hall]; constructor; [|done].
    intros Hi. rewrite Forall_forall in Hall. specialize (Hall _ Hi). lia. }
  assert (idx ⊆ seq 0 (List.length l)) as Hsub.
  { intros i Hi. apply elem_of_seq. apply Hidx, first_seen_at_lt in Hi. lia. }
  pose proof (submseteq_length _ _ (NoDup_submseteq _ _ Hnd Hsub)) as Hlen.
  by rewrite length_seq in Hlen.
Qed.

Lemma dedup_length l : (List.length (dedup l) ≤ List.length l)%nat.
Proof. apply first_occurrences_length, dedup_first_occurrences. Qed.

(** ** Slices *)

Lemma slice_stop_bound len k : 0 <= k → Z.of_nat (slice_stop len k) <= k.
Proof. intros Hk. unfold slice_stop. destruct (Z.ltb_spec k 0); lia. Qed.

Lemma slice_stop_zero len : slice_stop len 0 = 0%nat.
Proof. unfold slice_stop. simpl. lia. Qed.

Lemma slice_stop_ge len k : Z.of_nat len <= k → slice_stop len k = len.
Proof. intros Hk. unfold slice_stop. destruct (Z.ltb_spec k 0); lia. Qed.

Lemma py_slice_to_length {A} (l : list A) k :
  0 <= k → Z.of_nat (List.length (py_slice_to l k)) <= k.
Proof.
  intros Hk. unfold py_slice_to. rewrite length_take.
  pose proof (slice_stop_bound (List.length l) k Hk). lia.
Qed.

Lemma py_slice_to_zero {A} (l : list A) : py_slice_to l 0 = [].
Proof. unfold py_slice_to. by rewrite slice_stop_zero. Qed.

Lemma py_slice_to_all {A} (l : list A) k :
  Z.of_nat (List.length l) <= k → py_slice_to l k = l.
Proof.
  intros Hk. unfold py_slice_to. rewrite slice_stop_ge by done. by apply take_ge.
Qed.

Lemma slice_length data k items :
  0 <= k → slice data k = Return items → Z.of_nat (List.length items) <= k.
Proof.
  intros Hk. destruct data; simpl; intros [= <-].
  - rewrite length_fmap. by apply py_slice_to_length.
  - by apply py_slice_to_length.
Qed.

(** ** The calendar *)

Ltac bool_cases :=
  repeat match goal with
  | |- context [?a =? ?b] => destruct (Z.eqb_spec a b)
  | |- context [?a <? ?b] => destruct (Z.ltb_spec a b)
  | |- context [?a <=? ?b] => destruct (Z.leb_spec a b)
  | H : context [?a =? ?b] |- _ => destruct (Z.eqb_spec a b)
  | H : context [?a <? ?b] |- _ => destruct (Z.ltb_spec a b)
  | H : context [?a <=? ?b] |- _ => destruct (Z.leb_spec a b)
  end.

Lemma days_before_year_cycles q400 q100 q4 q1 :
  0 <= q100 <= 3 → 0 <= q4 <= 24 → 0 <= q1 <= 3 →
  days_before_year (q400 * 400 + 1 + q100 * 100 + q4 * 4 + q1)
  = q400 * DI400Y + q100 * DI100Y + q4 * DI4Y + q1 * 365.
Proof.
  intros H100 H4 H1. unfold days_before_year, DI400Y, DI100Y, DI4Y.
  Z.div_mod_to_equations. lia.
Qed.

Lemma is_leap_cycles q400 q100 q4 q1 :
  0 <= q100 <= 3 → 0 <= q4 <= 24 → 0 <= q1 <= 3 →
  is_leap (q400 * 400 + 1 + q100 * 100 + q4 * 4 + q1)
  = (q1 =? 3) && (negb (q4 =? 24) || (q100 =? 3)).
Proof.
  intros H100 H4 H1. unfold is_leap.
  bool_cases; simpl; try reflexivity; exfalso; Z.div_mod_to_equations; lia.
Qed.

Lemma month_day_spec n leapyear : 0 <= n < 365 → month_day_ok n leapyear.
Proof.
  intros Hn.
  assert (Forall (λ k, month_day_ok k true ∧ month_day_ok k false) (seqZ 0 365))
    as Hall.
  { apply (bool_decide_unpack _). by vm_compute. }
  rewrite Forall_forall in Hall.
  destruct (Hall n) as [Ht Hf]; [apply elem_of_seqZ; lia|].
  by destruct leapyear.
Qed.

Lemma ord2ymd_spec n :
  1 <= n <= MAXORDINAL →
  ∃ y m d, ord2ymd n = (y, m, d)
    ∧ 1 <= y <= 9999 ∧ 1 <= m <= 12 ∧ 1 <= d <= 31
    ∧ ymd2ord y m d = n.
Proof.
  intros Hn. unfold ord2ymd, MAXORDINAL in *.
  pose proof (Z.div_mod (n - 1) DI400Y) as E400.
  pose proof (Z.mod_pos_bound (n - 1) DI400Y) as B400.
  set (q400 := (n - 1) / DI400Y) in *. set (r400 := (n - 1) mod DI400Y) in *.
  pose proof (Z.div_mod r400 DI100Y) as E100.
  pose proof (Z.mod_pos_bound r400 DI100Y) as B100.
  set (q100 := r400 / DI100Y) in *. set (r100 := r400 mod DI100Y) in *.
  pose proof (Z.div_mod r100 DI4Y) as E4.
  pose proof (Z.mod_pos_bound r100 DI4Y) as B4.
  set (q4 := r100 / DI4Y) in *. set (r4 := r100 mod DI4Y) in *.
  pose proof (Z.div_mod r4 365) as E1.
  pose proof (Z.mod_pos_bound r4 365) as B1.
  set (q1 := r4 / 365) in *. set (r1 := r4 mod 365) in *.
  clearbody q400 r400 q100 r100 q4 r4 q1 r1.
  unfold DI400Y, DI100Y, DI4Y in *.
  specialize (E400 ltac:(lia)). specialize (B400 ltac:(lia)).
  specialize (E100 ltac:(lia)). specialize (B100 ltac:(lia)).
  specialize (E4 ltac:(lia)). specialize (B4 ltac:(lia)).
  specialize (E1 ltac:(lia)). specialize (B1 ltac:(lia)).
  assert (0 <= q400 <= 24) by lia.
  assert (0 <= q100 <= 4) by lia.
  assert (0 <= q4 <= 24) by lia.
  assert (0 <= q1 <= 4) by lia.
  destruct ((q1 =? 4) || (q100 =? 4)) eqn:Hlast.
  - (* the last day of a leap year *)
    eexists _, _, _. split; [reflexivity|].
    assert (r1 = 0 ∧ (q100 = 4 → q4 = 0 ∧ q1 = 0) ∧ (q1 = 4 → q4 <= 23 ∧ q100 <= 3))
      as (-> & Hq100 & Hq1) by (bool_cases; simpl in Hlast; try discriminate; lia).
    split; [lia|]. split; [lia|]. split; [lia|].
    unfold ymd2ord, days_before_month, days_before_year, is_leap.
    change (table DAYS_BEFORE_MONTH 12) with 334.
    bool_cases; simpl; Z.div_mod_to_equations; lia.
  - assert (q1 <= 3 ∧ q100 <= 3) as [? ?]
      by (bool_cases; simpl in Hlast; try discriminate; lia).
    pose proof (month_day_spec r1 ((q1 =? 3) && (negb (q4 =? 24) || (q100 =? 3)))
                  ltac:(lia)) as (Hm & Hd & Hback).
    destruct (month_day r1 _) as [m d] eqn:Hmd. simpl in Hm, Hd, Hback.
    eexists _, _, _. split; [reflexivity|].
    split; [lia|]. split; [lia|]. split; [lia|].
    unfold ymd2ord, days_before_month.
    rewrite days_before_year_cycles, is_leap_cycles by lia.
    unfold DI400Y, DI100Y, DI4Y. lia.
Qed.

Lemma toordinal_range t :
  valid_datetime t → 1 <= toordinal t <= MAXORDINAL.
Proof.
  intros (Hy & Hm & Hd). unfold toordinal, ymd2ord, MAXORDINAL.
  assert (0 <= days_before_month (year t) (month t)
          ∧ days_before_month (year t) (month t) + day t
            <= 365 + (if is_leap (year t) then 1 else 0)) as Hyday.
  { assert (Forall (λ m, ∀ leap : bool,
              let before :=
                table DAYS_BEFORE_MONTH m + (if (2 <? m) && leap then 1 else 0) in
              0 <= before
              ∧ before + (if (m =? 2) && leap then 29 else table DAYS_IN_MONTH m)
                <= 365 + (if leap then 1 else 0)) (seqZ 1 12)) as Hall.
    { apply (bool_decide_unpack _). by vm_compute. }
    rewrite Forall_forall in Hall.
    specialize (Hall (month t) ltac:(apply elem_of_seqZ; lia) (is_leap (year t))).
    unfold days_in_month, days_before_month in *. simpl in Hall. lia. }
  assert (0 <= days_before_year (year t)
          ∧ days_before_year (year t) + (if is_leap (year t) then 1 else 0)
            <= 3651694) as Hyear.
  { unfold days_before_year, is_leap.
    bool_cases; simpl; Z.div_mod_to_equations; lia. }
  lia.
Qed.

Lemma sub_days_spec t :
  valid_datetime t → 7 < toordinal t →
  ∃ d, sub_days t 7 = Return d
    ∧ toordinal d = toordinal t - 7
    ∧ 1 <= year d <= 9999 ∧ 1 <= month d <= 12 ∧ 1 <= day d <= 31.
Proof.
  intros Hvalid Hera. pose proof (toordinal_range t Hvalid) as Hord.
  unfold sub_days.
  destruct (ord2ymd_spec (toordinal t - 7)) as (y & m & d & -> & Hy & Hm & Hd & Hback);
    [unfold MAXORDINAL in *; lia|].
  replace ((0 <? toordinal t - 7) && (toordinal t - 7 <=? MAXORDINAL)) with true
    by (symmetry; apply andb_true_iff; split; [apply Z.ltb_lt|apply Z.leb_le]; lia).
  eexists. split; [reflexivity|]. done.
Qed.

Lemma digit_cases n : ∃ k, (k < 10)%nat ∧ digit n = ascii_of_nat (48 + k)
                          ∧ Z.of_nat k = n mod 10.
Proof.
  exists (Z.to_nat (n mod 10)). pose proof (Z.mod_pos_bound n 10 ltac:(lia)).
  split; [lia|]. split; [done|lia].
Qed.

Lemma is_digit_digit n : is_digit (digit n) = true.
Proof.
  destruct (digit_cases n) as (k & Hk & -> & _).
  do 10 (destruct k as [|k]; [reflexivity|]). lia.
Qed.

Lemma digit_value_digit n : digit_value (digit n) = n mod 10.
Proof.
  destruct (digit_cases n) as (k & Hk & -> & <-). unfold digit_value.
  rewrite nat_ascii_embedding by lia. lia.
Qed.

Lemma strftime_ymd_iso t : iso_date (strftime_ymd t) = true.
Proof.
  cbv [iso_date strftime_ymd digits4 digits2 String.append
       list_ascii_of_string forallb].
  rewrite !is_digit_digit. reflexivity.
Qed.

Lemma strftime_ymd_read t :
  0 <= year t <= 9999 → 0 <= month t <= 99 → 0 <= day t <= 99 →
  read_ymd (strftime_ymd t) = Some (year t, month t, day t).
Proof.
  intros Hy Hm Hd. unfold read_ymd. rewrite strftime_ymd_iso.
  cbv [strftime_ymd digits4 digits2 String.append list_ascii_of_string].
  rewrite !digit_value_digit. do 3 f_equal; Z.div_mod_to_equations; lia.
Qed.

Section Properties.
Context `{!PyRuntime}.

(** ** The first loop *)

Lemma news_of_dict d : news_of (PyDict d) = Return (record_of d).
Proof.
  unfold news_of, record_of, field; simpl.
  by destruct (d !! "headline"), (d !! "summary").
Qed.

Lemma for_items_spec items acc out :
  for_items items acc = Return out ↔
  ∃ ns, normalized items ns ∧ out = acc ++ ns.
Proof.
  revert acc. induction items as [|item rest IH]; intros acc; simpl.
  - split.
    + intros [= <-]. exists []. split; [constructor|by rewrite app_nil_r].
    + intros (ns & Hns & ->). apply Forall2_nil_inv_l in Hns as ->.
      by rewrite app_nil_r.
  - destruct (news_of item) as [n|e] eqn:Hitem.
    + rewrite IH. split.
      * intros (ns & Hns & ->). exists (n :: ns).
        split; [by constructor|by rewrite <- app_assoc].
      * intros (ns & Hns & ->).
        apply Forall2_cons_inv_l in Hns as (n' & ns' & Hn' & Hns' & ->).
        rewrite Hitem in Hn'. injection Hn' as <-.
        exists ns'. split; [done|by rewrite <- app_assoc].
    + split; [done|]. intros (ns & Hns & _).
      apply Forall2_cons_inv_l in Hns as (n' & ns' & Hn' & _).
      by rewrite Hitem in Hn'.
Qed.

Lemma for_items_normalized items all_news :
  for_items items [] = Return all_news ↔ normalized items all_news.
Proof.
  rewrite for_items_spec. split; [by intros (ns & Hns & ->)|].
  intros Hns. by exists all_news.
Qed.

Lemma for_items_dicts (ds : list (gmap string pyval)) :
  for_items (PyDict <$> ds) [] = Return (record_of <$> ds).
Proof.
  apply for_items_normalized. induction ds; constructor; [apply news_of_dict|done].
Qed.

(** ** One run of [get_stock_news] *)

Lemma get_stock_news_run sym key tc w s :
  get_stock_news sym key tc w s =
    if truthy key then
      let s2 := S (S (clock_reads s)) in
      match sub_days (clock w (S (clock_reads s))) 7 with
      | Raise e => (Raise e, {| clock_reads := s2; http_log := http_log s |})
      | Return from_day =>
          let req :=
            company_news_request (upper sym) (default "" key)
              (strftime_ymd from_day) (strftime_ymd (clock w (clock_reads s))) in
          (Return (answer (network w req) tc),
           {| clock_reads := s2; http_log := http_log s ++ [req] |})
      end
    else
      (Return (ErrorDict "Finnhub API key is required to fetch stock news."), s).
Proof.
  unfold get_stock_news. destruct (truthy key); [|done].
  unfold bind, now, lift, try_except, fetch, bind, requests_get, lift, ret; simpl.
  destruct (sub_days _ 7) as [from_day|e]; [|done]. simpl.
  unfold answer, process, company_news_request, url.
  destruct (network w _) as [detail|r]; [done|].
  destruct (raise_for_status r) as [[]|e]; [|done].
  destruct (json r) as [data|e]; [|done].
  destruct (slice data tc) as [items|e]; [|done].
  destruct (for_items items []) as [all_news|e]; done.
Qed.
Lemma not_own_extension {A} (l : list A) x : l ≠ l ++ [x].
Proof.
  intros Heq. apply (f_equal List.length) in Heq.
  rewrite length_app in Heq. simpl in Heq. lia.
Qed.

(** A call whose request was answered by [r] hands back what the [try]
    block and the rest make of [r]; the request is the one built from the
    symbol, the key and the two clock readings. *)
Lemma answered_run sym key tc w s req r :
  answered w s (get_stock_news sym key tc w s).2 req r →
  (get_stock_news sym key tc w s).1 = Return (answer (Responds r) tc)
  ∧ truthy key = true
  ∧ ∃ from_day,
      sub_days (clock w (S (clock_reads s))) 7 = Return from_day
      ∧ req = company_news_request (upper sym) (default "" key)
                (strftime_ymd from_day) (strftime_ymd (clock w (clock_reads s))).
Proof.
  rewrite get_stock_news_run. unfold answered.
  destruct (truthy key); simpl.
  - destruct (sub_days _ 7) as [from_day|e]; simpl.
    + intros [Hlog Hnet]. apply app_inv_head in Hlog. injection Hlog as <-.
      rewrite Hnet. eauto.
    + intros [Hlog _]. by apply not_own_extension in Hlog.
  - intros [Hlog _]. by apply not_own_extension in Hlog.
Qed.

Lemma process_success r data tc :
  success_with r data →
  process r tc =
    match slice data tc with
    | Raise e => Raise e
    | Return items => for_items items []
    end.
Proof. intros [Hstatus Hjson]. unfold process, json. by rewrite Hstatus, Hjson. Qed.

(** A call that hands back a list went through a successful fetch. *)
Lemma news_list_inv sym key tc w s news :
  (get_stock_news sym key tc w s).1 = Return (NewsList news) →
  ∃ req r data items all_news,
    answered w s (get_stock_news sym key tc w s).2 req r
    ∧ success_with r data
    ∧ slice data tc = Return items
    ∧ normalized items all_news
    ∧ all_news ≠ []
    ∧ news = py_slice_to (dedup all_news) tc.
Proof.
  rewrite get_stock_news_run. unfold answered, success_with.
  destruct (truthy key); [|done]. simpl.
  destruct (sub_days _ 7) as [from_day|e]; [|done]. simpl.
  destruct (network w _) as [detail|r] eqn:Hnet; [done|].
  unfold answer, process, json.
  destruct (raise_for_status r) as [[]|e] eqn:Hstatus; [|done].
  destruct (json_body r) as [data|] eqn:Hjson; [|done].
  destruct (slice data tc) as [items|e] eqn:Hslice; [|done].
  destruct (for_items items []) as [all_news|e] eqn:Hloop; [|done].
  destruct all_news as [|n all_news]; [done|]. intros [= <-].
  eexists _, r, data, items, (n :: all_news).
  split; [by split|]. split; [done|]. split; [done|].
  split; [by apply for_items_normalized|]. done.
Qed.

(** After a slice to [tc >= 0] the deduplicated list has at most [tc]
    entries, and slicing it again changes nothing. *)
Lemma dedup_within_target data tc items all_news :
  0 <= tc → slice data tc = Return items → normalized items all_news →
  Z.of_nat (List.length (dedup all_news)) <= tc
  ∧ py_slice_to (dedup all_news) tc = dedup all_news.
Proof.
  intros Htc Hslice Hnorm.
  pose proof (slice_length _ _ _ Htc Hslice) as Hitems.
  pose proof (Forall2_length _ _ _ Hnorm) as Hlen.
  pose proof (dedup_length all_news) as Hdedup.
  split; [lia|]. apply py_slice_to_all. lia.
Qed.

(** Items with pairwise different contents all survive the second loop. *)
Lemma foldl_dedup_fresh l seen acc :
  NoDup (content <$> l) → (∀ c, c ∈ content <$> l → c ∉ seen) →
  (foldl dedup_step (seen, acc) l).2 = acc ++ l.
Proof.
  revert seen acc. induction l as [|x l IH]; intros seen acc Hnd Hfresh; simpl.
  - by rewrite app_nil_r.
  - rewrite fmap_cons in Hnd. apply NoDup_cons in Hnd as [Hx Hnd].
    rewrite decide_False by (apply Hfresh; left).
    rewrite IH, <- app_assoc; [done|done|].
    intros c Hc. rewrite elem_of_union, elem_of_singleton.
    intros [->|Hseen]; [done|]. apply (Hfresh c); [by right|done].
Qed.

Lemma dedup_distinct l : NoDup (content <$> l) → dedup l = l.
Proof.
  intros Hnd. unfold dedup. rewrite foldl_dedup_fresh; [done|done|].
  intros c _. apply not_elem_of_empty.
Qed.

(** * The claims *)

(** C1 (amended to a target count that is not negative).  When a call
    with [target_count >= 0] hands back a list, that list is the
    first-occurrence deduplication, by exact content, of the normalized
    items [all_news] built from the provider's response (from its first
    [target_count] items): it is [all_news] restricted to the positions
    where a content is seen first, in increasing position; no content
    occurs twice; every content of [all_news] occurs. *)
Theorem news_first_occurrences sym key tc w s news :
  0 <= tc →
  (get_stock_news sym key tc w s).1 = Return (NewsList news) →
  ∃ req r data items all_news,
    answered w s (get_stock_news sym key tc w s).2 req r
    ∧ success_with r data
    ∧ slice data tc = Return items
    ∧ normalized items all_news
    ∧ first_occurrences all_news news
    ∧ NoDup (content <$> news)
    ∧ ∀ c, c ∈ content <$> news ↔ c ∈ content <$> all_news.
Proof.
  intros Htc Hres.
  destruct (news_list_inv _ _ _ _ _ _ Hres)
    as (req & r & data & items & all_news & Hans & Hok & Hslice & Hnorm & _ & ->).
  destruct (dedup_within_target _ _ _ _ Htc Hslice Hnorm) as [_ ->].
  exists req, r, data, items, all_news.
  split; [done|]. split; [done|]. split; [done|]. split; [done|].
  split; [apply dedup_first_occurrences|].
  split; [apply dedup_NoDup|]. apply dedup_contents.
Qed.

(** C2.  A list handed back by a call with a positive target count has at
    most that many entries; with a target count of 2 and a response of
    five items whose contents differ pairwise, the call hands back the
    records of the first two items, in the provider's order. *)
Theorem truncation :
  (∀ sym key tc w s news,
     0 < tc →
     (get_stock_news sym key tc w s).1 = Return (NewsList news) →
     Z.of_nat (List.length news) <= tc)
  ∧ (∀ sym key w s req r i1 i2 i3 i4 i5 n1 n2 n3 n4 n5,
       answered w s (get_stock_news sym key 2 w s).2 req r →
       success_with r (PyList [i1; i2; i3; i4; i5]) →
       normalized [i1; i2; i3; i4; i5] [n1; n2; n3; n4; n5] →
       NoDup (content <$> [n1; n2; n3; n4; n5]) →
       (get_stock_news sym key 2 w s).1 = Return (NewsList [n1; n2])).
Proof.
  split.
  - intros sym key tc w s news Htc Hres.
    destruct (news_list_inv _ _ _ _ _ _ Hres)
      as (_ & _ & _ & _ & all_news & _ & _ & _ & _ & _ & ->).
    apply py_slice_to_length. lia.
  - intros sym key w s req r i1 i2 i3 i4 i5 n1 n2 n3 n4 n5 Hans Hok Hnorm Hnd.
    destruct (answered_run _ _ _ _ _ _ _ Hans) as (-> & _ & _).
    unfold answer. rewrite (process_success _ _ _ Hok). cbn [slice].
    change (py_slice_to [i1; i2; i3; i4; i5] 2) with [i1; i2].
    assert (normalized [i1; i2] [n1; n2]) as Hfirst.
    { apply Forall2_cons_1 in Hnorm as [H1 Hnorm].
      apply Forall2_cons_1 in Hnorm as [H2 _]. by repeat constructor. }
    apply for_items_normalized in Hfirst as ->. cbn [finish].
    rewrite dedup_distinct; [done|].
    change [n1; n2; n3; n4; n5] with ([n1; n2] ++ [n3; n4; n5]) in Hnd.
    rewrite fmap_app in Hnd. by apply NoDup_app in Hnd as [? _].
Qed.

(** C3.  With an absent or empty key the call hands back the error value
    that asks for a key, and leaves the state as it was: no request is
    issued (and the clock is not read). *)
Theorem missing_credential sym key tc w s :
  key = None ∨ key = Some "" →
  (get_stock_news sym key tc w s).1
    = Return (ErrorDict "Finnhub API key is required to fetch stock news.")
  ∧ http_log (get_stock_news sym key tc w s).2 = http_log s
  ∧ (get_stock_news sym key tc w s).2 = s.
Proof. intros [-> | ->]; rewrite get_stock_news_run; done. Qed.

(** C4.  When the provider answers the request of a call with a success
    that carries zero items, the call hands back the error value with the
    no-news message, not an empty list. *)
Theorem empty_response sym key tc w s req r :
  answered w s (get_stock_news sym key tc w s).2 req r →
  success_with r (PyList []) →
  (get_stock_news sym key tc w s).1
    = Return (ErrorDict
        "No news found for the given stock symbol. Check if the symbol is correct.")
  ∧ (get_stock_news sym key tc w s).1 ≠ Return (NewsList []).
Proof.
  intros Hans Hok. destruct (answered_run _ _ _ _ _ _ _ Hans) as (-> & _ & _).
  unfold answer. rewrite (process_success _ _ _ Hok). simpl.
  unfold py_slice_to. rewrite take_nil. simpl. done.
Qed.

(** With no historical data [get_closing_prices] reaches its [raise] of
    a dict, which Python turns into a [TypeError]. *)
Lemma get_closing_prices_empty ticker period interval w s :
  df_empty (yf_history w ticker period interval) = true →
  get_closing_prices ticker period interval w s = (Raise NotAnException, s).
Proof. intros Hempty. unfold get_closing_prices. by rewrite Hempty. Qed.

(** With a sane clock [get_stock_news] itself never raises: each of its
    failures is handed back as an error value. *)
Lemma get_stock_news_returns sym key tc w s :
  clock_ok w → ∃ v, (get_stock_news sym key tc w s).1 = Return v.
Proof.
  intros Hclock. rewrite get_stock_news_run. destruct (truthy key); [|by eexists].
  destruct (Hclock (S (clock_reads s))) as [Hvalid Hera].
  destruct (sub_days_spec _ Hvalid Hera) as (d & -> & _). by eexists.
Qed.

(** C6.  A raw item is normalized without an exception, and a missing
    headline or summary contributes the empty string to the content
    [headline +:+ ". " +:+ summary]; a response made of such items is
    turned into their records, never into a fetch error. *)
Theorem missing_fields sym key tc w s req r (ds : list (gmap string pyval)) :
  (∀ d : gmap string pyval,
     ∃ n, news_of (PyDict d) = Return n
       ∧ content n = field d "headline" +:+ ". " +:+ field d "summary"
       ∧ (d !! "headline" = None → field d "headline" = "")
       ∧ (d !! "summary" = None → field d "summary" = "")
       ∧ (∀ v, d !! "headline" = Some v → field d "headline" = py_str v)
       ∧ (∀ v, d !! "summary" = Some v → field d "summary" = py_str v))
  ∧ (answered w s (get_stock_news sym key tc w s).2 req r →
     success_with r (PyList (PyDict <$> ds)) →
     (get_stock_news sym key tc w s).1
       = Return (finish (record_of <$> py_slice_to ds tc) tc)).
Proof.
  split.
  - intros d. exists (record_of d). split; [apply news_of_dict|].
    split; [done|]. unfold field.
    split; [by intros ->|]. split; [by intros ->|].
    split; by intros v ->.
  - intros Hans Hok. destruct (answered_run _ _ _ _ _ _ _ Hans) as (-> & _ & _).
    unfold answer. rewrite (process_success _ _ _ Hok). cbn [slice].
    unfold py_slice_to. rewrite length_fmap, <- fmap_take.
    by rewrite for_items_dicts.
Qed.

(** C7.  Symbol ["aapl"], target count 10, and a provider that answers
    with two items, both with headline ["X"], summary ["y"] and no
    source: the call hands back the single record with source
    ["Finnhub"] and content ["X. y"], and the request it sent asks for
    the symbol ["AAPL"]. *)
Theorem scenario_aapl key w s req r :
  let item := PyDict {[ "headline" := PyStr "X"; "summary" := PyStr "y" ]} in
  answered w s (get_stock_news "aapl" key 10 w s).2 req r →
  success_with r (PyList [item; item]) →
  (get_stock_news "aapl" key 10 w s).1
    = Return (NewsList [{| source := PyStr "Finnhub"; content := "X. y" |}])
  ∧ req_params req !! 0%nat = Some ("symbol", "AAPL").
Proof.
  intros item Hans Hok.
  destruct (answered_run _ _ _ _ _ _ _ Hans) as (-> & _ & from_day & _ & ->).
  split; [|done].
  unfold answer. rewrite (process_success _ _ _ Hok). reflexivity.
Qed.

(** C8 (amended: the clock is read twice).  A call with a non-empty key,
    under a clock whose readings are dates from which seven days can be
    subtracted, issues exactly one request: a GET to the company-news
    endpoint with the parameters [symbol], [from] and
    [to], the key in the [X-Finnhub-Token] header and a timeout of 10
    seconds.  [to] is the clock reading taken first, [from] is the
    reading taken next moved back by seven days (seven days before [to]
    when both readings fall on one day); each is written as
    [YYYY-MM-DD], and reads back as its year, month and day. *)
Theorem one_request sym key tc w s :
  truthy key = true → clock_ok w →
  let to_now := clock w (clock_reads s) in
  let from_now := clock w (S (clock_reads s)) in
  ∃ k from_day,
    key = Some k
    ∧ sub_days from_now 7 = Return from_day
    ∧ toordinal from_day = toordinal from_now - 7
    ∧ (toordinal from_now = toordinal to_now →
       toordinal from_day = toordinal to_now - 7)
    ∧ http_log (get_stock_news sym key tc w s).2
      = http_log s ++
        [{| req_method := "GET";
            req_url := "https://finnhub.io/api/v1/company-news";
            req_params := [("symbol", upper sym);
                           ("from", strftime_ymd from_day);
                           ("to", strftime_ymd to_now)];
            req_headers := [("X-Finnhub-Token", k)];
            req_timeout := 10 |}]
    ∧ iso_date (strftime_ymd from_day) = true
    ∧ read_ymd (strftime_ymd from_day)
      = Some (year from_day, month from_day, day from_day)
    ∧ iso_date (strftime_ymd to_now) = true
    ∧ read_ymd (strftime_ymd to_now)
      = Some (year to_now, month to_now, day to_now).
Proof.
  intros Hkey Hclock to_now from_now. subst to_now from_now.
  destruct key as [k|]; [|done]. exists k.
  destruct (Hclock (S (clock_reads s))) as [Hvalid Hera].
  destruct (sub_days_spec _ Hvalid Hera) as (from_day & Hsub & Hback & Hy & Hm & Hd).
  exists from_day. split; [done|]. split; [done|]. split; [done|].
  split; [intros <-; done|].
  split.
  { rewrite get_stock_news_run, Hkey. cbn zeta. by rewrite Hsub. }
  split; [apply strftime_ymd_iso|].
  split; [apply strftime_ymd_read; lia|].
  split; [apply strftime_ymd_iso|].
  destruct (Hclock (clock_reads s)) as [(Hy' & Hm' & Hd') _].
  apply strftime_ymd_read; [lia|lia|].
  assert (days_in_month (year (clock w (clock_reads s)))
            (month (clock w (clock_reads s))) <= 31); [|lia].
  unfold days_in_month. destruct (_ && _); [lia|].
  assert (Forall (λ m, table DAYS_IN_MONTH m <= 31) (seqZ 1 12)) as Hall
    by (apply (bool_decide_unpack _); by vm_compute).
  rewrite Forall_forall in Hall. apply Hall, elem_of_seqZ. lia.
Qed.

(** C9 (amended to a target count that is not negative).  For a target
    count [>= 0] the deduplicated list has at most that many entries, the
    last slice removes nothing, and the routine with and without it hand
    back the same result in the same state. *)
Theorem final_slice_redundant sym key tc w s :
  0 <= tc →
  get_stock_news sym key tc w s = get_stock_news_noslice sym key tc w s
  ∧ ∀ data items all_news,
      slice data tc = Return items → normalized items all_news →
      Z.of_nat (List.length (dedup all_news)) <= tc
      ∧ py_slice_to (dedup all_news) tc = dedup all_news.
Proof.
  intros Htc. split; [|intros data items all_news; by apply dedup_within_target].
  unfold get_stock_news, get_stock_news_noslice.
  destruct (truthy key); [|done].
  unfold bind, now, lift, try_except, fetch, bind, requests_get, lift, ret; simpl.
  destruct (sub_days _ 7) as [from_day|e]; [|done]. simpl.
  destruct (network w _) as [detail|r]; [done|].
  destruct (raise_for_status r) as [[]|e]; [|done].
  destruct (json r) as [data|e]; [|done].
  destruct (slice data tc) as [items|e] eqn:Hslice; [|done].
  destruct (for_items items []) as [all_news|e] eqn:Hloop; [|done].
  apply for_items_normalized in Hloop.
  destruct (dedup_within_target _ _ _ _ Htc Hslice Hloop) as [_ Hsame].
  unfold finish, finish_noslice. destruct all_news; [done|]. by rewrite Hsame.
Qed.

(** C10.  With a target count of 0, a provider that answers the request
    with a success carrying at least one item still gets the caller the
    no-news error value, not an empty list: no item is taken before the
    emptiness test. *)
Theorem zero_target_count sym key w s req r item items :
  answered w s (get_stock_news sym key 0 w s).2 req r →
  success_with r (PyList (item :: items)) →
  (get_stock_news sym key 0 w s).1
    = Return (ErrorDict
        "No news found for the given stock symbol. Check if the symbol is correct.")
  ∧ (get_stock_news sym key 0 w s).1 ≠ Return (NewsList []).
Proof.
  intros Hans Hok. destruct (answered_run _ _ _ _ _ _ _ Hans) as (-> & _ & _).
  unfold answer. rewrite (process_success _ _ _ Hok). cbn [slice].
  by rewrite py_slice_to_zero.
Qed.

End Properties.

(** * The claims at sample inputs *)

Lemma sample_answered sym tc data :
  upper (H := sample_runtime) sym = "AAPL" →
  answered (sample_world data) initial
    (get_stock_news (H := sample_runtime) sym (Some "k") tc (sample_world data) initial).2
    sample_request (sample_response data).
Proof.
  intros Hsym. rewrite get_stock_news_run. simpl. rewrite Hsym. by split.
Qed.

Lemma sample_clock_ok data : clock_ok (sample_world data).
Proof.
  intros n. simpl. unfold valid_datetime. simpl.
  change (days_in_month 2026 11) with 30.
  change (toordinal sample_time) with 739923. lia.
Qed.

(** Three items with different contents, target count 2: the list handed
    back has the properties of C1. *)
Lemma news_first_occurrences_witness :
  0 <= 2
  ∧ ∃ req r data items all_news,
      answered (sample_world three_items) initial
        (get_stock_news (H := sample_runtime) "aapl" (Some "k") 2
           (sample_world three_items) initial).2 req r
      ∧ success_with r data
      ∧ slice data 2 = Return items
      ∧ normalized (H := sample_runtime) items all_news
      ∧ first_occurrences all_news [record "A" "a"; record "B" "b"]
      ∧ NoDup (content <$> [record "A" "a"; record "B" "b"])
      ∧ ∀ c, c ∈ content <$> [record "A" "a"; record "B" "b"]
             ↔ c ∈ content <$> all_news.
Proof.
  split; [lia|].
  apply (news_first_occurrences (H := sample_runtime) "aapl" (Some "k") 2
           (sample_world three_items) initial); [lia|reflexivity].
Defined.

(** C1 as it was stated fails for a negative target count: with
    [target_count = -1] and three items of different contents, the
    records built are those of the first two items, and the list handed
    back holds the first only. *)
Lemma news_first_occurrences_negative_target :
  let res := get_stock_news (H := sample_runtime) "aapl" (Some "k") (-1)
               (sample_world three_items) initial in
  res.1 = Return (NewsList [record "A" "a"])
  ∧ ¬ ∃ req r data items all_news,
        answered (sample_world three_items) initial res.2 req r
        ∧ success_with r data
        ∧ slice data (-1) = Return items
        ∧ normalized (H := sample_runtime) items all_news
        ∧ first_occurrences all_news [record "A" "a"]
        ∧ NoDup (content <$> [record "A" "a"])
        ∧ ∀ c, c ∈ content <$> [record "A" "a"] ↔ c ∈ content <$> all_news.
Proof.
  split; [reflexivity|].
  intros (req & r & data & items & all_news
          & [_ Hnet] & [_ Hjson] & Hslice & Hnorm & _ & _ & Hcontents).
  injection Hnet as <-. injection Hjson as <-.
  injection Hslice as <-. apply for_items_normalized in Hnorm.
  injection Hnorm as <-.
  assert ("B. b" ∈ content <$> [record "A" "a"]) as Hin.
  { apply Hcontents. right. left. }
  apply list_elem_of_singleton in Hin. discriminate Hin.
Qed.

(** Five items with different contents, target count 2. *)
Lemma truncation_witness :
  (0 < 2
   ∧ Z.of_nat (List.length [record "A" "a"; record "B" "b"]) <= 2)
  ∧ (get_stock_news (H := sample_runtime) "aapl" (Some "k") 2
       (sample_world five_items) initial).1
    = Return (NewsList [record "A" "a"; record "B" "b"]).
Proof.
  split.
  - split; [lia|].
    apply (proj1 (truncation (H := sample_runtime)) "aapl" (Some "k") 2
             (sample_world five_items) initial); [lia|reflexivity].
  - apply (proj2 (truncation (H := sample_runtime)) "aapl" (Some "k")
             (sample_world five_items) initial
             sample_request (sample_response five_items)
             (PyDict (raw "A" "a")) (PyDict (raw "B" "b")) (PyDict (raw "C" "c"))
             (PyDict (raw "D" "d")) (PyDict (raw "E" "e"))
             (record "A" "a") (record "B" "b") (record "C" "c")
             (record "D" "d") (record "E" "e")).
    + by apply sample_answered.
    + by split.
    + repeat constructor.
    + simpl. repeat (apply NoDup_cons; split;
        [rewrite ?elem_of_cons, elem_of_nil; intros H; repeat destruct H as [H|H];
         discriminate || done|]).
      apply NoDup_nil_2.
Defined.

(** No key at all. *)
Lemma missing_credential_witness :
  (@None string = None ∨ @None string = Some "")
  ∧ (get_stock_news (H := sample_runtime) "aapl" None 5
       (sample_world three_items) initial).1
    = Return (ErrorDict "Finnhub API key is required to fetch stock news.")
  ∧ http_log (get_stock_news (H := sample_runtime) "aapl" None 5
                (sample_world three_items) initial).2 = []
  ∧ (get_stock_news (H := sample_runtime) "aapl" None 5
       (sample_world three_items) initial).2 = initial.
Proof.
  split; [by left|].
  apply (missing_credential (H := sample_runtime) "aapl" None 5
           (sample_world three_items) initial). by left.
Defined.

(** A provider that answers with an empty array. *)
Lemma empty_response_witness :
  (get_stock_news (H := sample_runtime) "aapl" (Some "k") 5
     (sample_world (PyList [])) initial).1
    = Return (ErrorDict
        "No news found for the given stock symbol. Check if the symbol is correct.")
  ∧ (get_stock_news (H := sample_runtime) "aapl" (Some "k") 5
       (sample_world (PyList [])) initial).1 ≠ Return (NewsList []).
Proof.
  apply (empty_response (H := sample_runtime) "aapl" (Some "k") 5
           (sample_world (PyList [])) initial
           sample_request (sample_response (PyList []))).
  - by apply sample_answered.
  - by split.
Defined.

(** C5: with no historical data [get_closing_prices] does not hand back
    an error value; it raises ([raise] applied to a dict is a
    [TypeError]). *)
Lemma get_closing_prices_raises :
  get_closing_prices "AAPL" "1y" "1mo" (sample_world PyNone) initial
    = (Raise NotAnException, initial)
  ∧ ∀ v, (get_closing_prices "AAPL" "1y" "1mo" (sample_world PyNone) initial).1
         ≠ Return v.
Proof.
  rewrite get_closing_prices_empty by reflexivity. by split.
Qed.

(** An item without a summary, and one with neither field. *)
Lemma missing_fields_witness :
  (∃ n, news_of (H := sample_runtime) (PyDict {[ "headline" := PyStr "X" ]})
          = Return n ∧ content n = "X. ")
  ∧ (get_stock_news (H := sample_runtime) "aapl" (Some "k") 5
       (sample_world (PyList (PyDict <$> [ {[ "headline" := PyStr "X" ]}; ∅ ])))
       initial).1
    = Return (NewsList [record "X" ""; record "" ""]).
Proof.
  pose proof (missing_fields (H := sample_runtime) "aapl" (Some "k") 5
                (sample_world (PyList (PyDict <$> [ {[ "headline" := PyStr "X" ]}; ∅ ])))
                initial sample_request
                (sample_response (PyList (PyDict <$> [ {[ "headline" := PyStr "X" ]}; ∅ ])))
                [ {[ "headline" := PyStr "X" ]}; ∅ ]) as [Hitem Hcall].
  split.
  - destruct (Hitem {[ "headline" := PyStr "X" ]}) as (n & Hn & Hcontent & _).
    exists n. split; [exact Hn|exact Hcontent].
  - rewrite Hcall; [reflexivity|by apply sample_answered|by split].
Defined.

(** The scenario of C7 in the sample world. *)
Lemma scenario_aapl_witness :
  (get_stock_news (H := sample_runtime) "aapl" (Some "k") 10
     (sample_world (PyList [PyDict (raw "X" "y"); PyDict (raw "X" "y")])) initial).1
    = Return (NewsList [{| source := PyStr "Finnhub"; content := "X. y" |}])
  ∧ req_params sample_request !! 0%nat = Some ("symbol", "AAPL").
Proof.
  apply (scenario_aapl (H := sample_runtime) (Some "k")
           (sample_world (PyList [PyDict (raw "X" "y"); PyDict (raw "X" "y")]))
           initial sample_request
           (sample_response (PyList [PyDict (raw "X" "y"); PyDict (raw "X" "y")]))).
  - by apply sample_answered.
  - by split.
Defined.

(** The request of a call on 3 November 2026. *)
Lemma one_request_witness :
  truthy (Some "k") = true
  ∧ http_log (get_stock_news (H := sample_runtime) "aapl" (Some "k") 5
                (sample_world three_items) initial).2
    = [{| req_method := "GET";
          req_url := "https://finnhub.io/api/v1/company-news";
          req_params := [("symbol", "AAPL"); ("from", "2026-10-27");
                         ("to", "2026-11-03")];
          req_headers := [("X-Finnhub-Token", "k")];
          req_timeout := 10 |}].
Proof.
  split; [reflexivity|].
  destruct (one_request (H := sample_runtime) "aapl" (Some "k") 5
              (sample_world three_items) initial eq_refl
              (sample_clock_ok three_items))
    as (k & from_day & Hk & Hsub & _ & _ & Hlog & _).
  injection Hk as <-. injection Hsub as <-. exact Hlog.
Defined.

(** C8 as it was stated fails when midnight passes between the two
    readings of the clock: read at 23:59:59 on 3 November 2026 and then
    at 00:00 on 4 November, the request asks for [from = 2026-10-28] and
    [to = 2026-11-03], six days apart, and no reading of the clock is a
    "now" with [to = now] and [from = now - 7 days]. *)
Lemma one_request_across_midnight :
  let w := world_of around_midnight (Responds (sample_response three_items))
             no_history in
  let req := company_news_request "AAPL" "k" "2026-10-28" "2026-11-03" in
  truthy (Some "k") = true
  ∧ clock_ok w
  ∧ http_log (get_stock_news (H := sample_runtime) "aapl" (Some "k") 5 w initial).2
    = [req]
  ∧ read_ymd "2026-10-28" = Some (2026, 10, 28)
  ∧ read_ymd "2026-11-03" = Some (2026, 11, 3)
  ∧ ymd2ord 2026 11 3 - ymd2ord 2026 10 28 = 6
  ∧ ¬ ∃ n from_day,
        sub_days (clock w n) 7 = Return from_day
        ∧ req_params req = [("symbol", "AAPL");
                            ("from", strftime_ymd from_day);
                            ("to", strftime_ymd (clock w n))].
Proof.
  intros w req. split; [reflexivity|]. split.
  { intros [|n]; simpl; unfold valid_datetime; simpl;
      change (days_in_month 2026 11) with 30.
    - change (toordinal _) with 739923. lia.
    - change (toordinal _) with 739924. lia. }
  split; [reflexivity|]. split; [reflexivity|]. split; [reflexivity|].
  split; [reflexivity|].
  intros (n & from_day & Hsub & Hparams). destruct n as [|n].
  - vm_compute in Hsub. injection Hsub as <-.
    vm_compute in Hparams. discriminate Hparams.
  - vm_compute in Hparams. discriminate Hparams.
Qed.

(** Three items, target count 5: the last slice changes nothing. *)
Lemma final_slice_redundant_witness :
  0 <= 5
  ∧ get_stock_news (H := sample_runtime) "aapl" (Some "k") 5
      (sample_world three_items) initial
    = get_stock_news_noslice (H := sample_runtime) "aapl" (Some "k") 5
        (sample_world three_items) initial.
Proof.
  split; [lia|].
  apply (final_slice_redundant (H := sample_runtime) "aapl" (Some "k") 5
           (sample_world three_items) initial). lia.
Defined.

(** C9 as it was stated fails for a negative target count: with
    [target_count = -1] and three items of different contents, two
    records are built and deduplicated, the last slice removes the
    second of them, and the routine without that slice keeps both. *)
Lemma final_slice_negative_target :
  (get_stock_news (H := sample_runtime) "aapl" (Some "k") (-1)
     (sample_world three_items) initial).1
    = Return (NewsList [record "A" "a"])
  ∧ (get_stock_news_noslice (H := sample_runtime) "aapl" (Some "k") (-1)
       (sample_world three_items) initial).1
    = Return (NewsList [record "A" "a"; record "B" "b"])
  ∧ get_stock_news (H := sample_runtime) "aapl" (Some "k") (-1)
      (sample_world three_items) initial
    ≠ get_stock_news_noslice (H := sample_runtime) "aapl" (Some "k") (-1)
        (sample_world three_items) initial.
Proof.
  split; [reflexivity|]. split; [reflexivity|].
  intros Heq. apply (f_equal fst) in Heq. vm_compute in Heq. discriminate Heq.
Qed.

(** Three items and a target count of 0. *)
Lemma zero_target_count_witness :
  (get_stock_news (H := sample_runtime) "aapl" (Some "k") 0
     (sample_world three_items) initial).1
    = Return (ErrorDict
        "No news found for the given stock symbol. Check if the symbol is correct.")
  ∧ (get_stock_news (H := sample_runtime) "aapl" (Some "k") 0
       (sample_world three_items) initial).1 ≠ Return (NewsList []).
Proof.
  apply (zero_target_count (H := sample_runtime) "aapl" (Some "k")
           (sample_world three_items) initial
           sample_request (sample_response three_items)
           (PyDict (raw "A" "a")) [PyDict (raw "B" "b"); PyDict (raw "C" "c")]).
  - by apply sample_answered.
  - by split.
Defined.

(** * Further properties of the code *)

(** ** Laws of the second loop *)

(** The list the loop starts from is only appended to. *)
Lemma foldl_dedup_acc l seen acc :
  (foldl dedup_step (seen, acc) l).2 = acc ++ (foldl dedup_step (seen, []) l).2.
Proof.
  revert seen acc. induction l as [|x l IH]; intros seen acc; simpl.
  - by rewrite app_nil_r.
  - case_decide; [apply IH|].
    rewrite (IH _ (acc ++ [x])), (IH _ [x]). by rewrite <- app_assoc.
Qed.

(** Starting from a set [seen] amounts to dropping beforehand the items
    whose content is in [seen]. *)
Lemma foldl_dedup_seen l seen :
  (foldl dedup_step (seen, []) l).2
  = dedup (filter (λ y, content y ∉ seen) l).
Proof.
  unfold dedup. remember (List.length l) as n eqn:Hn.
  revert l seen Hn. induction n as [n IH] using lt_wf_ind.
  intros [|x l] seen ->; [done|]. simpl. case_decide as Hseen.
  - rewrite filter_cons_False by (by intros ?).
    apply (IH (List.length l)); [simpl; lia|done].
  - rewrite filter_cons_True by done. simpl.
    rewrite decide_False by apply not_elem_of_empty.
    rewrite (foldl_dedup_acc _ _ [x]), (foldl_dedup_acc _ ({[content x]} ∪ ∅) [x]).
    f_equal.
    rewrite (IH (List.length l) ltac:(simpl; lia) l _ eq_refl).
    pose proof (length_filter (λ y, content y ∉ seen) l) as Hshort.
    rewrite (IH (List.length (filter (λ y, content y ∉ seen) l))
               ltac:(simpl; lia) _ _ eq_refl).
    rewrite list_filter_filter. do 2 f_equal. apply list_filter_iff.
    intros y. rewrite !elem_of_union, !elem_of_singleton, elem_of_empty. tauto.
Qed.

Lemma dedup_cons x l :
  dedup (x :: l) = x :: dedup (filter (λ y, content y ≠ content x) l).
Proof.
  unfold dedup at 1. simpl. rewrite decide_False by apply not_elem_of_empty.
  rewrite foldl_dedup_acc, foldl_dedup_seen. simpl. do 2 f_equal.
  apply list_filter_iff. intros y.
  rewrite elem_of_union, elem_of_singleton, elem_of_empty. tauto.
Qed.

(** X14.  The second loop returns a sub-sequence of its input, and running
    it on its own output changes nothing. *)
Theorem dedup_sublist_idempotent l :
  dedup l `sublist_of` l ∧ dedup (dedup l) = dedup l.
Proof.
  split; [|apply dedup_distinct, dedup_NoDup].
  remember (List.length l) as n eqn:Hn. revert l Hn.
  induction n as [n IH] using lt_wf_ind. intros [|x l] ->; [done|].
  rewrite dedup_cons. apply sublist_skip.
  pose proof (length_filter (λ y, content y ≠ content x) l) as Hshort.
  etrans; [|apply (sublist_filter (λ y, content y ≠ content x))].
  apply (IH (List.length (filter (λ y, content y ≠ content x) l))
            ltac:(simpl; lia) _ eq_refl).
Qed.

(** X15.  The second loop over a concatenation: what it keeps of the first
    part, then what it keeps of those items of the second part whose
    content does not occur in the first.  Hence the first item is always
    kept, and a later item with the content of an earlier one is dropped
    whatever its source. *)
Theorem dedup_app l1 l2 :
  dedup (l1 ++ l2)
  = dedup l1 ++ dedup (filter (λ y, content y ∉ content <$> l1) l2).
Proof.
  unfold dedup at 1. rewrite foldl_app.
  pose proof (dedup_inv_loop l1) as (Hseen & _).
  destruct (foldl dedup_step (∅, []) l1) as [seen unique_news] eqn:Hloop.
  rewrite foldl_dedup_acc, foldl_dedup_seen.
  unfold dedup at 2. rewrite Hloop. simpl. do 2 f_equal.
  apply list_filter_iff. intros y. simpl in Hseen. by rewrite Hseen.
Qed.

Section Behaviour.
Context `{!PyRuntime}.

(** ** Failures of the fetch *)

Lemma asked_run sym key tc w s req h :
  asked w s (get_stock_news sym key tc w s).2 req h →
  (get_stock_news sym key tc w s).1 = Return (answer h tc)
  ∧ truthy key = true
  ∧ ∃ from_day,
      sub_days (clock w (S (clock_reads s))) 7 = Return from_day
      ∧ req = company_news_request (upper sym) (default "" key)
                (strftime_ymd from_day) (strftime_ymd (clock w (clock_reads s))).
Proof.
  rewrite get_stock_news_run. unfold asked.
  destruct (truthy key); simpl.
  - destruct (sub_days _ 7) as [from_day|e]; simpl.
    + intros [Hlog Hnet]. apply app_inv_head in Hlog. injection Hlog as <-.
      rewrite Hnet. eauto.
    + intros [Hlog _]. by apply not_own_extension in Hlog.
  - intros [Hlog _]. by apply not_own_extension in Hlog.
Qed.

(** X1.  When the request itself fails (no connection, timeout), the call
    hands back the fetch-error value, whose message ends with the text of
    the exception. *)
Theorem request_failure sym key tc w s req detail :
  asked w s (get_stock_news sym key tc w s).2 req (Fails detail) →
  (get_stock_news sym key tc w s).1
    = Return (ErrorDict ("Error fetching news from Finnhub: "
                         +:+ str_exn (RequestException detail))).
Proof. intros Hask. by destruct (asked_run _ _ _ _ _ _ _ Hask) as (-> & _). Qed.

(** X2.  An answer with a status from 400 to 599 makes the call hand back
    the fetch-error value for that status, whatever the body holds, news
    included. *)
Theorem http_error_status sym key tc w s req r :
  asked w s (get_stock_news sym key tc w s).2 req (Responds r) →
  400 <= status_code r < 600 →
  (get_stock_news sym key tc w s).1
    = Return (ErrorDict ("Error fetching news from Finnhub: "
                         +:+ str_exn (HTTPError (status_code r)))).
Proof.
  intros Hask Hstatus. destruct (asked_run _ _ _ _ _ _ _ Hask) as (-> & _).
  unfold answer, process, raise_for_status.
  replace ((400 <=? status_code r) && (status_code r <? 600)) with true; [done|].
  symmetry. apply andb_true_iff. split; [apply Z.leb_le|apply Z.ltb_lt]; lia.
Qed.

(** X3.  An answer that passes the status check but whose body is not
    JSON, or is a JSON value other than an array or a string (an object,
    a number, a boolean, null), makes the call hand back the fetch-error
    value: never the no-news error, never a list. *)
Theorem unusable_payload sym key tc w s req r :
  asked w s (get_stock_news sym key tc w s).2 req (Responds r) →
  raise_for_status r = Return tt →
  (json_body r = None →
   (get_stock_news sym key tc w s).1
     = Return (ErrorDict ("Error fetching news from Finnhub: "
                          +:+ str_exn JSONDecodeError)))
  ∧ (∀ data, json_body r = Some data →
       (∀ l, data ≠ PyList l) → (∀ t, data ≠ PyStr t) →
       (get_stock_news sym key tc w s).1
         = Return (ErrorDict ("Error fetching news from Finnhub: "
                              +:+ str_exn (NotSliceable (type_name data))))).
Proof.
  intros Hask Hstatus. destruct (asked_run _ _ _ _ _ _ _ Hask) as (-> & _).
  unfold answer, process, json. rewrite Hstatus. split.
  - by intros ->.
  - intros data -> Hlist Hstr. destruct data; try done.
    + by destruct (Hstr s0).
    + by destruct (Hlist l).
Qed.

(** X4.  If among the items the loop visits (the slice of the array to
    the target count) one is not a JSON object, the call hands back the
    fetch-error value for the first such item; the records built before
    it are dropped. *)
Theorem malformed_item sym key tc w s req r l (ds : list (gmap string pyval))
    item rest :
  asked w s (get_stock_news sym key tc w s).2 req (Responds r) →
  success_with r (PyList l) →
  py_slice_to l tc = (PyDict <$> ds) ++ item :: rest →
  (∀ d, item ≠ PyDict d) →
  (get_stock_news sym key tc w s).1
    = Return (ErrorDict ("Error fetching news from Finnhub: "
                         +:+ str_exn (NoAttribute (type_name item) "get"))).
Proof.
  intros Hask Hok Hslice Hitem. destruct (asked_run _ _ _ _ _ _ _ Hask) as (-> & _).
  unfold answer. rewrite (process_success _ _ _ Hok). cbn [slice]. rewrite Hslice.
  assert (∀ acc, for_items ((PyDict <$> ds) ++ item :: rest) acc
                 = Raise (NoAttribute (type_name item) "get")) as ->; [|done].
  clear Hslice. induction ds as [|d ds IH]; intros acc.
  - simpl. destruct item; try done. by destruct (Hitem d).
  - rewrite fmap_cons, <- app_comm_cons. cbn [for_items].
    rewrite news_of_dict. apply IH.
Qed.

(** X5.  Once the first [target_count] items of the array are JSON
    objects, the rest of the array is never looked at: whatever follows,
    well formed or not, the call hands back the deduplicated records of
    those first items. *)
Theorem rest_of_response_ignored sym key tc w s req r
    (ds : list (gmap string pyval)) rest :
  asked w s (get_stock_news sym key tc w s).2 req (Responds r) →
  success_with r (PyList ((PyDict <$> ds) ++ rest)) →
  Z.of_nat (List.length ds) = tc → ds ≠ [] →
  (get_stock_news sym key tc w s).1
    = Return (NewsList (dedup (record_of <$> ds))).
Proof.
  intros Hask Hok Hlen Hne. destruct (asked_run _ _ _ _ _ _ _ Hask) as (-> & _).
  unfold answer. rewrite (process_success _ _ _ Hok). cbn [slice].
  assert (py_slice_to ((PyDict <$> ds) ++ rest) tc = PyDict <$> ds) as ->.
  { unfold py_slice_to, slice_stop. rewrite length_app, length_fmap, <- Hlen.
    destruct (Z.ltb_spec (Z.of_nat (List.length ds)) 0); [lia|].
    rewrite Z.min_l by lia. rewrite Nat2Z.id.
    rewrite <- (length_fmap PyDict ds). apply take_app_length. }
  rewrite for_items_dicts. unfold finish.
  destruct ds as [|d ds]; [done|]. simpl fmap at 1.
  f_equal. f_equal. apply py_slice_to_all.
  pose proof (dedup_length (record_of <$> d :: ds)) as Hshort.
  rewrite length_fmap in Hshort. lia.
Qed.

(** ** What a call can and cannot do *)

(** X6.  No exception of the request, the status check, the decoding,
    the slice or the normalization escapes the call.  The one way it can
    raise is the overflow of the date arithmetic ahead of the [try], and
    then no request was issued; with a clock from which seven days can be
    subtracted the call always returns a value. *)
Theorem only_overflow_escapes sym key tc w s :
  (∀ e, (get_stock_news sym key tc w s).1 = Raise e →
     e = DateOverflow
     ∧ truthy key = true
     ∧ http_log (get_stock_news sym key tc w s).2 = http_log s)
  ∧ (clock_ok w → ∃ v, (get_stock_news sym key tc w s).1 = Return v).
Proof.
  rewrite get_stock_news_run. split.
  - intros e. destruct (truthy key); [|done]. cbn zeta.
    unfold sub_days. destruct ((0 <? _) && _).
    + by destruct (ord2ymd _) as [[y m] d].
    + simpl. by intros [= <-].
  - intros Hclock. destruct (truthy key); [|by eexists].
    destruct (Hclock (S (clock_reads s))) as [Hvalid Hera].
    destruct (sub_days_spec _ Hvalid Hera) as (d & -> & _). by eexists.
Qed.

(** A call that hands back a list got a JSON array, and the items the
    loop visited were all JSON objects. *)
Lemma news_list_array sym key tc w s news :
  (get_stock_news sym key tc w s).1 = Return (NewsList news) →
  ∃ req r l (ds : list (gmap string pyval)),
    answered w s (get_stock_news sym key tc w s).2 req r
    ∧ success_with r (PyList l)
    ∧ py_slice_to l tc = PyDict <$> ds
    ∧ ds ≠ []
    ∧ news = py_slice_to (dedup (record_of <$> ds)) tc.
Proof.
  intros Hres.
  destruct (news_list_inv _ _ _ _ _ _ Hres)
    as (req & r & data & items & all_news & Hans & Hok & Hslice & Hnorm & Hne & ->).
  assert (∃ ds : list (gmap string pyval),
            items = PyDict <$> ds ∧ all_news = record_of <$> ds) as (ds & -> & ->).
  { clear -Hnorm. induction Hnorm as [|item n items all_news Hn _ (ds & -> & ->)].
    - by exists [].
    - destruct item; try done. rewrite news_of_dict in Hn. injection Hn as <-.
      by exists (d :: ds). }
  destruct data; simpl in Hslice; try done; injection Hslice as Hslice.
  - (* a JSON string: its characters are not objects *)
    destruct ds as [|d ds]; [done|].
    destruct (py_slice_to (code_points s0) tc); done.
  - exists req, r, l, ds. split; [done|]. split; [done|]. split; [done|].
    split; [|done]. by intros ->.
Qed.

(** X7.  A list handed back by a call whose target count is not negative
    is never empty, and the target count was positive. *)
Theorem success_not_empty sym key tc w s news :
  0 <= tc →
  (get_stock_news sym key tc w s).1 = Return (NewsList news) →
  news ≠ [] ∧ 0 < tc.
Proof.
  intros Htc Hres.
  destruct (news_list_array _ _ _ _ _ _ Hres)
    as (_ & _ & l & ds & _ & _ & Hslice & Hne & ->).
  pose proof (py_slice_to_length l tc Htc) as Hlen.
  rewrite Hslice, length_fmap in Hlen.
  destruct ds as [|d ds]; [done|]. simpl in Hlen. split; [|lia].
  rewrite py_slice_to_all.
  - rewrite fmap_cons, dedup_cons. done.
  - pose proof (dedup_length (record_of <$> d :: ds)) as Hshort.
    rewrite length_fmap in Hshort.
    change (List.length (d :: ds)) with (S (List.length ds)) in Hshort. lia.
Qed.

(** X8.  With a negative target count [-k] the call visits the array
    without its last [k] items and hands back the deduplicated records
    without their last [k]: a list that can be empty. *)
Theorem negative_target sym key tc w s news :
  tc < 0 →
  (get_stock_news sym key tc w s).1 = Return (NewsList news) →
  ∃ req r l (ds : list (gmap string pyval)),
    answered w s (get_stock_news sym key tc w s).2 req r
    ∧ success_with r (PyList l)
    ∧ take (List.length l - Z.to_nat (- tc)) l = PyDict <$> ds
    ∧ news = take (List.length (dedup (record_of <$> ds)) - Z.to_nat (- tc))
               (dedup (record_of <$> ds)).
Proof.
  intros Htc Hres.
  destruct (news_list_array _ _ _ _ _ _ Hres)
    as (req & r & l & ds & Hans & Hok & Hslice & _ & ->).
  exists req, r, l, ds. split; [done|]. split; [done|].
  assert (∀ A (x : list A),
            py_slice_to x tc = take (List.length x - Z.to_nat (- tc)) x) as Hneg.
  { intros A x. unfold py_slice_to, slice_stop.
    destruct (Z.ltb_spec tc 0); [|lia]. f_equal. lia. }
  by rewrite <- !Hneg.
Qed.

(** X9.  Every record of a list handed back by a call is the
    normalization of a JSON object of the array the provider sent: no
    record is made up, and none comes from anything but an object. *)
Theorem records_come_from_response sym key tc w s news :
  (get_stock_news sym key tc w s).1 = Return (NewsList news) →
  ∃ req r l,
    answered w s (get_stock_news sym key tc w s).2 req r
    ∧ success_with r (PyList l)
    ∧ ∀ n, n ∈ news → ∃ d, PyDict d ∈ l ∧ n = record_of d.
Proof.
  intros Hres.
  destruct (news_list_array _ _ _ _ _ _ Hres)
    as (req & r & l & ds & Hans & Hok & Hslice & _ & ->).
  exists req, r, l. split; [done|]. split; [done|]. intros n Hn.
  assert (n ∈ record_of <$> ds) as (d & -> & Hd)%list_elem_of_fmap.
  { unfold py_slice_to in Hn. apply elem_of_take in Hn as (i & Hi & _).
    destruct (dedup_first_occurrences (record_of <$> ds)) as (idx & _ & _ & Hat).
    destruct (Forall2_lookup_r _ _ _ _ _ Hat Hi) as (k & _ & Hk).
    by eapply list_elem_of_lookup_2. }
  exists d. split; [|done].
  assert (PyDict d ∈ py_slice_to l tc) as Hin
    by (rewrite Hslice; by apply list_elem_of_fmap_2).
  unfold py_slice_to in Hin. apply elem_of_take in Hin as (i & Hi & _).
  by eapply list_elem_of_lookup_2.
Qed.

(** X10.  Whatever its arguments and the world, a call issues no request
    or exactly one, and issues it only with a non-empty key: a GET to the
    company-news endpoint, timeout 10, whose only header carries the key
    and whose parameters are [symbol], [from] and [to], the symbol in
    upper case.  No failure is followed by a second attempt. *)
Theorem request_discipline sym key tc w s :
  http_log (get_stock_news sym key tc w s).2 = http_log s
  ∨ ∃ req k,
      http_log (get_stock_news sym key tc w s).2 = http_log s ++ [req]
      ∧ key = Some k ∧ k ≠ ""
      ∧ req_method req = "GET"
      ∧ req_url req = "https://finnhub.io/api/v1/company-news"
      ∧ req_timeout req = 10
      ∧ req_headers req = [("X-Finnhub-Token", k)]
      ∧ (req_params req).*1 = ["symbol"; "from"; "to"]
      ∧ req_params req !! 0%nat = Some ("symbol", upper sym).
Proof.
  rewrite get_stock_news_run.
  destruct key as [[|c k]|]; [by left| |by left]. cbn [truthy]. cbn zeta.
  destruct (sub_days _ 7) as [from_day|e]; [|by left].
  right. eexists _, (String c k). by repeat split.
Qed.

Lemma upper_ascii_idemp c : upper_ascii (upper_ascii c) = upper_ascii c.
Proof.
  unfold upper_ascii.
  destruct ((97 <=? nat_of_ascii c)%nat && (nat_of_ascii c <=? 122)%nat) eqn:Hlow;
    [|by rewrite Hlow].
  apply andb_true_iff in Hlow as [Hlo Hhi].
  apply Nat.leb_le in Hlo, Hhi.
  rewrite nat_ascii_embedding by lia.
  replace ((97 <=? nat_of_ascii c - 32)%nat) with false; [done|].
  symmetry. apply Nat.leb_gt. lia.
Qed.

Lemma ascii_upper_idemp sym : ascii_upper (ascii_upper sym) = ascii_upper sym.
Proof.
  induction sym as [|c sym IH]; [done|]. simpl. by rewrite upper_ascii_idemp, IH.
Qed.

Lemma upper_ascii_below c :
  (nat_of_ascii c <? 128)%nat = true → (nat_of_ascii (upper_ascii c) <? 128)%nat = true.
Proof.
  intros Hc. unfold upper_ascii.
  destruct ((97 <=? nat_of_ascii c)%nat && (nat_of_ascii c <=? 122)%nat) eqn:Hlow;
    [|done].
  apply andb_true_iff in Hlow as [Hlo Hhi]. apply Nat.leb_le in Hlo, Hhi.
  rewrite nat_ascii_embedding by lia. apply Nat.ltb_lt. lia.
Qed.

Lemma is_ascii_upper sym : is_ascii sym = true → is_ascii (ascii_upper sym) = true.
Proof.
  induction sym as [|c sym IH]; [done|]. simpl.
  intros [Hc Hsym]%andb_true_iff. by rewrite upper_ascii_below, IH.
Qed.

(** X11.  For a symbol of ASCII characters a call depends on the symbol
    only through its upper-case form: calling with the symbol already
    upper-cased gives the same result, the same request and the same
    state. *)
Theorem symbol_case sym key tc w s :
  is_ascii sym = true →
  get_stock_news (upper sym) key tc w s = get_stock_news sym key tc w s.
Proof.
  intros Hsym. rewrite !get_stock_news_run. unfold upper.
  by rewrite Hsym, is_ascii_upper, ascii_upper_idemp.
Qed.

(** X12.  The clock is read twice, first for [to], then for [from]: the
    request's window is seven days shortened by the days that pass
    between the two readings (six days when midnight passes). *)
Theorem window_between_readings sym key tc w s :
  truthy key = true → clock_ok w →
  let to_now := clock w (clock_reads s) in
  let from_now := clock w (S (clock_reads s)) in
  ∃ req from_day,
    http_log (get_stock_news sym key tc w s).2 = http_log s ++ [req]
    ∧ clock_reads (get_stock_news sym key tc w s).2 = S (S (clock_reads s))
    ∧ req_params req !! 1%nat = Some ("from", strftime_ymd from_day)
    ∧ req_params req !! 2%nat = Some ("to", strftime_ymd to_now)
    ∧ toordinal to_now - toordinal from_day
      = 7 - (toordinal from_now - toordinal to_now).
Proof.
  intros Hkey Hclock to_now from_now. subst to_now from_now.
  destruct (Hclock (S (clock_reads s))) as [Hvalid Hera].
  destruct (sub_days_spec _ Hvalid Hera) as (from_day & Hsub & Hback & _).
  rewrite get_stock_news_run, Hkey. cbn zeta. rewrite Hsub.
  eexists _, from_day. split; [done|]. split; [done|].
  split; [done|]. split; [done|]. lia.
Qed.

(** X13.  The defaults of the normalization apply to missing keys only: a
    headline that is present but null is written ["None"], and a source
    that is present is handed on as it is, text or not. *)
Theorem null_fields_kept (d : gmap string pyval) src :
  d !! "headline" = Some PyNone → d !! "source" = Some src →
  ∃ n, news_of (PyDict d) = Return n
    ∧ content n = "None. " +:+ field d "summary"
    ∧ source n = src.
Proof.
  intros Hh Hs. exists (record_of d). split; [apply news_of_dict|].
  unfold record_of, field. rewrite Hh, Hs. done.
Qed.

(** X17.  When the provider sends an array of JSON objects with no more
    items than the target count, nothing is cut: the call hands back the
    deduplicated records of the whole array. *)
Theorem whole_response_below_target sym key tc w s req r
    (ds : list (gmap string pyval)) :
  asked w s (get_stock_news sym key tc w s).2 req (Responds r) →
  success_with r (PyList (PyDict <$> ds)) →
  Z.of_nat (List.length ds) <= tc → ds ≠ [] →
  (get_stock_news sym key tc w s).1
    = Return (NewsList (dedup (record_of <$> ds))).
Proof.
  intros Hask Hok Hlen Hne. destruct (asked_run _ _ _ _ _ _ _ Hask) as (-> & _).
  unfold answer. rewrite (process_success _ _ _ Hok). cbn [slice].
  rewrite py_slice_to_all by (rewrite length_fmap; lia).
  rewrite for_items_dicts. unfold finish.
  destruct ds as [|d ds]; [done|]. simpl fmap at 1.
  f_equal. f_equal. apply py_slice_to_all.
  pose proof (dedup_length (record_of <$> d :: ds)) as Hshort.
  rewrite length_fmap in Hshort. lia.
Qed.

(** X18.  In the same world and state a larger target count only extends
    the result: for an array of JSON objects and target counts
    [0 < tc1 <= tc2], the list handed back for [tc1] is a prefix of the
    list handed back for [tc2]. *)
Theorem larger_target_extends sym key tc1 tc2 w s req r
    (ds : list (gmap string pyval)) :
  asked w s (get_stock_news sym key tc1 w s).2 req (Responds r) →
  success_with r (PyList (PyDict <$> ds)) →
  0 < tc1 <= tc2 → ds ≠ [] →
  ∃ news1 news2,
    (get_stock_news sym key tc1 w s).1 = Return (NewsList news1)
    ∧ (get_stock_news sym key tc2 w s).1 = Return (NewsList news2)
    ∧ news1 `prefix_of` news2.
Proof.
  intros Hask Hok Htc Hne.
  destruct (asked_run _ _ _ _ _ _ _ Hask) as (Hrun1 & Hkey & from_day & Hsub & ->).
  destruct Hask as [_ Hnet].
  assert (∀ tc, 0 < tc →
            (get_stock_news sym key tc w s).1
            = Return (NewsList (dedup (record_of <$> take (Z.to_nat tc) ds))))
    as Hrun.
  { intros tc Hpos. rewrite get_stock_news_run, Hkey. cbn zeta.
    rewrite Hsub. cbn zeta. cbn [fst]. rewrite Hnet.
    unfold answer. rewrite (process_success _ _ _ Hok). cbn [slice].
    assert (py_slice_to (PyDict <$> ds) tc = PyDict <$> take (Z.to_nat tc) ds) as ->.
    { unfold py_slice_to, slice_stop. rewrite length_fmap.
      destruct (Z.ltb_spec tc 0); [lia|]. rewrite fmap_take.
      destruct (Z.le_gt_cases tc (Z.of_nat (List.length ds))).
      - by rewrite Z.min_l by lia.
      - rewrite Z.min_r by lia. rewrite Nat2Z.id.
        rewrite !take_ge; [done|rewrite length_fmap; lia|rewrite length_fmap; lia]. }
    rewrite for_items_dicts. unfold finish.
    destruct (take (Z.to_nat tc) ds) as [|d ds'] eqn:Htake.
    { destruct ds; [done|]. destruct (Z.to_nat tc) eqn:Hz; [lia|done]. }
    simpl fmap at 1. f_equal. f_equal. apply py_slice_to_all.
    pose proof (dedup_length (record_of <$> d :: ds')) as Hshort.
    rewrite length_fmap in Hshort.
    assert (List.length (d :: ds') ≤ Z.to_nat tc)%nat
      by (rewrite <- Htake, length_take; lia).
    lia. }
  eexists _, _. split; [apply Hrun; lia|]. split; [apply Hrun; lia|].
  assert (take (Z.to_nat tc2) ds
          = take (Z.to_nat tc1) ds
            ++ take (Z.to_nat tc2 - Z.to_nat tc1) (drop (Z.to_nat tc1) ds)) as ->.
  { rewrite <- (take_drop (Z.to_nat tc1) ds) at 1.
    rewrite take_app, length_take.
    destruct (Nat.le_gt_cases (Z.to_nat tc1) (List.length ds)).
    - rewrite Nat.min_l by done. f_equal. rewrite take_take. f_equal. lia.
    - rewrite Nat.min_r by lia. rewrite !drop_ge by lia.
      rewrite !take_nil, !app_nil_r. rewrite take_take. f_equal. lia. }
  rewrite fmap_app.
  destruct (foldl dedup_step (∅, []) (record_of <$> take (Z.to_nat tc1) ds))
    as [seen unique_news] eqn:Hloop.
  unfold dedup at 2. rewrite foldl_app, Hloop, foldl_dedup_acc.
  unfold dedup at 1. rewrite Hloop. by eexists.
Qed.

End Behaviour.

(** ** Price history *)

(** X16.  [get_closing_prices] hands back prices only for a history that
    is not empty, and then they are the entry ["Close"] of the mapping
    [get_stock_history] hands back for the same arguments; for an empty
    history [get_stock_history] still returns where [get_closing_prices]
    raises.  Neither touches the request log. *)
Theorem closing_prices_match_history ticker period interval w s :
  (∀ prices,
     (get_closing_prices ticker period interval w s).1 = Return prices →
     df_empty (yf_history w ticker period interval) = false
     ∧ ∃ mapping,
         (get_stock_history ticker period interval w s).1 = Return mapping
         ∧ ("Close", prices) ∈ mapping)
  ∧ (df_empty (yf_history w ticker period interval) = true →
     (get_closing_prices ticker period interval w s).1 = Raise NotAnException
     ∧ ∃ mapping,
         (get_stock_history ticker period interval w s).1 = Return mapping)
  ∧ (get_closing_prices ticker period interval w s).2 = s
  ∧ (get_stock_history ticker period interval w s).2 = s.
Proof.
  unfold get_closing_prices, get_stock_history, df_getitem, df_to_dict.
  set (hist := yf_history w ticker period interval).
  split; [|split; [|split]].
  - intros prices. destruct (df_empty hist); [done|]. simpl.
    unfold bind, lift, ret.
    destruct (list_find _ _) as [[i [name values]]|] eqn:Hfind; [|done].
    simpl. intros [= <-]. split; [done|]. eexists. split; [done|].
    apply list_find_Some in Hfind as (Hi & Hname & _). simpl in Hname. subst name.
    apply list_elem_of_fmap. exists ("Close", values). split; [done|].
    by eapply list_elem_of_lookup_2.
  - intros ->. simpl. split; [done|]. by eexists.
  - destruct (df_empty hist); [done|]. simpl. unfold bind, lift, ret.
    by destruct (list_find _ _) as [[i [name values]]|].
  - done.
Qed.

(** ** The further properties at sample inputs *)

Lemma sample_asked_of h hist tc :
  asked (world_of (fun _ => sample_time) h hist) initial
    (get_stock_news (H := sample_runtime) "aapl" (Some "k") tc
       (world_of (fun _ => sample_time) h hist) initial).2
    sample_request h.
Proof. rewrite get_stock_news_run. by split. Qed.

(** A request that times out. *)
Lemma request_failure_witness :
  (get_stock_news (H := sample_runtime) "aapl" (Some "k") 5
     (world_of (fun _ => sample_time) (Fails "timed out") no_history) initial).1
  = Return (ErrorDict "Error fetching news from Finnhub: <exception>").
Proof.
  apply (request_failure (H := sample_runtime) "aapl" (Some "k") 5
           (world_of (fun _ => sample_time) (Fails "timed out") no_history)
           initial sample_request "timed out").
  apply sample_asked_of.
Defined.

(** Status 429 with three items in the body. *)
Lemma http_error_status_witness :
  400 <= 429 < 600
  ∧ (get_stock_news (H := sample_runtime) "aapl" (Some "k") 5
       (world_of (fun _ => sample_time)
          (Responds {| status_code := 429; json_body := Some three_items |})
          no_history) initial).1
    = Return (ErrorDict "Error fetching news from Finnhub: <exception>").
Proof.
  split; [lia|].
  apply (http_error_status (H := sample_runtime) "aapl" (Some "k") 5
           (world_of (fun _ => sample_time)
              (Responds {| status_code := 429; json_body := Some three_items |})
              no_history)
           initial sample_request
           {| status_code := 429; json_body := Some three_items |}).
  - apply sample_asked_of.
  - simpl. lia.
Defined.

(** A body that is not JSON, and a body that is a JSON object. *)
Lemma unusable_payload_witness :
  (get_stock_news (H := sample_runtime) "aapl" (Some "k") 5
     (world_of (fun _ => sample_time)
        (Responds {| status_code := 200; json_body := None |}) no_history)
     initial).1
  = Return (ErrorDict "Error fetching news from Finnhub: <exception>")
  ∧ (get_stock_news (H := sample_runtime) "aapl" (Some "k") 5
       (world_of (fun _ => sample_time)
          (Responds (sample_response (PyDict {[ "error" := PyStr "limit" ]})))
          no_history)
       initial).1
    = Return (ErrorDict "Error fetching news from Finnhub: <exception>").
Proof.
  split.
  - apply (proj1 (unusable_payload (H := sample_runtime) "aapl" (Some "k") 5
                    (world_of (fun _ => sample_time)
                       (Responds {| status_code := 200; json_body := None |})
                       no_history)
                    initial sample_request
                    {| status_code := 200; json_body := None |}
                    (sample_asked_of _ _ _) eq_refl)).
    reflexivity.
  - apply (proj2 (unusable_payload (H := sample_runtime) "aapl" (Some "k") 5
                    (world_of (fun _ => sample_time)
                       (Responds (sample_response (PyDict {[ "error" := PyStr "limit" ]})))
                       no_history)
                    initial sample_request
                    (sample_response (PyDict {[ "error" := PyStr "limit" ]}))
                    (sample_asked_of _ _ _) eq_refl)
             (PyDict {[ "error" := PyStr "limit" ]})); [reflexivity|done|done].
Defined.

(** A number between two objects. *)
Lemma malformed_item_witness :
  (get_stock_news (H := sample_runtime) "aapl" (Some "k") 5
     (world_of (fun _ => sample_time)
        (Responds (sample_response
           (PyList [PyDict (raw "A" "a"); PyInt 7; PyDict (raw "B" "b")])))
        no_history)
     initial).1
  = Return (ErrorDict "Error fetching news from Finnhub: <exception>").
Proof.
  apply (malformed_item (H := sample_runtime) "aapl" (Some "k") 5
           (world_of (fun _ => sample_time)
              (Responds (sample_response
                 (PyList [PyDict (raw "A" "a"); PyInt 7; PyDict (raw "B" "b")])))
              no_history)
           initial sample_request
           (sample_response
              (PyList [PyDict (raw "A" "a"); PyInt 7; PyDict (raw "B" "b")]))
           [PyDict (raw "A" "a"); PyInt 7; PyDict (raw "B" "b")]
           [raw "A" "a"] (PyInt 7) [PyDict (raw "B" "b")]).
  - apply sample_asked_of.
  - by split.
  - reflexivity.
  - done.
Defined.

(** Two objects, then a number, target count 2. *)
Lemma rest_of_response_ignored_witness :
  (get_stock_news (H := sample_runtime) "aapl" (Some "k") 2
     (world_of (fun _ => sample_time)
        (Responds (sample_response
           (PyList [PyDict (raw "A" "a"); PyDict (raw "A" "a"); PyInt 7])))
        no_history)
     initial).1
  = Return (NewsList [record "A" "a"]).
Proof.
  apply (rest_of_response_ignored (H := sample_runtime) "aapl" (Some "k") 2
           (world_of (fun _ => sample_time)
              (Responds (sample_response
                 (PyList [PyDict (raw "A" "a"); PyDict (raw "A" "a"); PyInt 7])))
              no_history)
           initial sample_request
           (sample_response
              (PyList [PyDict (raw "A" "a"); PyDict (raw "A" "a"); PyInt 7]))
           [raw "A" "a"; raw "A" "a"] [PyInt 7]).
  - apply sample_asked_of.
  - by split.
  - reflexivity.
  - done.
Defined.

(** A clock on 3 January of year 1, and the clock of the sample world. *)
Lemma only_overflow_escapes_witness :
  (DateOverflow = DateOverflow
   ∧ truthy (Some "k") = true
   ∧ http_log (get_stock_news (H := sample_runtime) "aapl" (Some "k") 5
                 (world_of first_days (Responds (sample_response three_items))
                    no_history) initial).2 = [])
  ∧ ∃ v, (get_stock_news (H := sample_runtime) "aapl" (Some "k") 5
            (sample_world three_items) initial).1 = Return v.
Proof.
  split.
  - apply (proj1 (only_overflow_escapes (H := sample_runtime) "aapl" (Some "k") 5
                    (world_of first_days (Responds (sample_response three_items))
                       no_history) initial) DateOverflow).
    reflexivity.
  - apply (proj2 (only_overflow_escapes (H := sample_runtime) "aapl" (Some "k") 5
                    (sample_world three_items) initial)).
    apply sample_clock_ok.
Defined.

(** Three items, target count 2. *)
Lemma success_not_empty_witness :
  0 <= 2
  ∧ [record "A" "a"; record "B" "b"] ≠ [] ∧ 0 < 2.
Proof.
  split; [lia|].
  apply (success_not_empty (H := sample_runtime) "aapl" (Some "k") 2
           (sample_world three_items) initial [record "A" "a"; record "B" "b"]);
    [lia|reflexivity].
Defined.

(** Two items and a target count of -1: one record is built, and the
    last slice removes it. *)
Lemma negative_target_witness :
  -1 < 0
  ∧ (get_stock_news (H := sample_runtime) "aapl" (Some "k") (-1)
       (sample_world (PyList [PyDict (raw "A" "a"); PyDict (raw "B" "b")]))
       initial).1 = Return (NewsList [])
  ∧ ∃ req r l (ds : list (gmap string pyval)),
      answered (sample_world (PyList [PyDict (raw "A" "a"); PyDict (raw "B" "b")]))
        initial
        (get_stock_news (H := sample_runtime) "aapl" (Some "k") (-1)
           (sample_world (PyList [PyDict (raw "A" "a"); PyDict (raw "B" "b")]))
           initial).2 req r
      ∧ success_with r (PyList l)
      ∧ take (List.length l - Z.to_nat (- -1)) l = PyDict <$> ds
      ∧ [] = take (List.length (dedup (record_of (H := sample_runtime) <$> ds))
                   - Z.to_nat (- -1))
               (dedup (record_of (H := sample_runtime) <$> ds)).
Proof.
  split; [lia|]. split; [reflexivity|].
  apply (negative_target (H := sample_runtime) "aapl" (Some "k") (-1)
           (sample_world (PyList [PyDict (raw "A" "a"); PyDict (raw "B" "b")]))
           initial []); [lia|reflexivity].
Defined.

(** Three items, target count 2. *)
Lemma records_come_from_response_witness :
  ∃ req r l,
    answered (sample_world three_items) initial
      (get_stock_news (H := sample_runtime) "aapl" (Some "k") 2
         (sample_world three_items) initial).2 req r
    ∧ success_with r (PyList l)
    ∧ ∀ n, n ∈ [record "A" "a"; record "B" "b"] →
        ∃ d, PyDict d ∈ l ∧ n = record_of (H := sample_runtime) d.
Proof.
  apply (records_come_from_response (H := sample_runtime) "aapl" (Some "k") 2
           (sample_world three_items) initial [record "A" "a"; record "B" "b"]).
  reflexivity.
Defined.

Lemma around_midnight_ok h hist : clock_ok (world_of around_midnight h hist).
Proof.
  intros [|n]; simpl; unfold valid_datetime; simpl;
    change (days_in_month 2026 11) with 30.
  - change (toordinal _) with 739923. lia.
  - change (toordinal _) with 739924. lia.
Qed.

(** Midnight between the two readings: a window of six days. *)
Lemma window_between_readings_witness :
  truthy (Some "k") = true
  ∧ ∃ req from_day,
      http_log (get_stock_news (H := sample_runtime) "aapl" (Some "k") 5
                  (world_of around_midnight (Responds (sample_response three_items))
                     no_history) initial).2 = [req]
      ∧ clock_reads (get_stock_news (H := sample_runtime) "aapl" (Some "k") 5
                  (world_of around_midnight (Responds (sample_response three_items))
                     no_history) initial).2 = 2%nat
      ∧ req_params req !! 1%nat = Some ("from", strftime_ymd from_day)
      ∧ req_params req !! 2%nat = Some ("to", "2026-11-03")
      ∧ toordinal (around_midnight 0) - toordinal from_day = 7 - (739924 - 739923).
Proof.
  split; [reflexivity|].
  apply (window_between_readings (H := sample_runtime) "aapl" (Some "k") 5
           (world_of around_midnight (Responds (sample_response three_items))
              no_history) initial eq_refl (around_midnight_ok _ _)).
Defined.

(** A null headline and a null source. *)
Lemma null_fields_kept_witness :
  ∃ n, news_of (H := sample_runtime)
         (PyDict {[ "headline" := PyNone; "summary" := PyStr "y";
                    "source" := PyNone ]}) = Return n
    ∧ content n = "None. y"
    ∧ source n = PyNone.
Proof.
  destruct (null_fields_kept (H := sample_runtime)
              {[ "headline" := PyNone; "summary" := PyStr "y"; "source" := PyNone ]}
              PyNone) as (n & Hn & Hcontent & Hsource);
    [reflexivity|reflexivity|].
  exists n. split; [exact Hn|]. split; [exact Hcontent|exact Hsource].
Defined.

(** A history of two months, and no history. *)
Lemma closing_prices_match_history_witness :
  (df_empty sample_history = false
   ∧ ∃ mapping,
       (get_stock_history "AAPL" "1y" "1mo"
          (world_of (fun _ => sample_time) (Fails "") sample_history) initial).1
       = Return mapping
       ∧ ("Close", [(1756684800, 254); (1759276800, 270)]) ∈ mapping)
  ∧ (get_closing_prices "AAPL" "1y" "1mo"
       (world_of (fun _ => sample_time) (Fails "") no_history) initial).1
    = Raise NotAnException.
Proof.
  split.
  - apply (proj1 (closing_prices_match_history "AAPL" "1y" "1mo"
                    (world_of (fun _ => sample_time) (Fails "") sample_history)
                    initial)).
    reflexivity.
  - apply (proj1 (proj2 (closing_prices_match_history "AAPL" "1y" "1mo"
                    (world_of (fun _ => sample_time) (Fails "") no_history)
                    initial))).
    reflexivity.
Defined.

(** Three items and the default target count of 100. *)
Lemma whole_response_below_target_witness :
  (get_stock_news (H := sample_runtime) "aapl" (Some "k") 100
     (world_of (fun _ => sample_time) (Responds (sample_response three_items))
        no_history) initial).1
  = Return (NewsList [record "A" "a"; record "B" "b"; record "C" "c"]).
Proof.
  apply (whole_response_below_target (H := sample_runtime) "aapl" (Some "k") 100
           (world_of (fun _ => sample_time) (Responds (sample_response three_items))
              no_history)
           initial sample_request (sample_response three_items)
           [raw "A" "a"; raw "B" "b"; raw "C" "c"]).
  - apply sample_asked_of.
  - by split.
  - simpl. lia.
  - done.
Defined.

(** The symbol ["aapl"]. *)
Lemma symbol_case_witness :
  is_ascii "aapl" = true
  ∧ get_stock_news (H := sample_runtime) "AAPL" (Some "k") 5
      (sample_world three_items) initial
    = get_stock_news (H := sample_runtime) "aapl" (Some "k") 5
        (sample_world three_items) initial.
Proof.
  split; [reflexivity|].
  apply (symbol_case (H := sample_runtime) "aapl" (Some "k") 5
           (sample_world three_items) initial). reflexivity.
Defined.

(** Three items, target counts 1 and 2. *)
Lemma larger_target_extends_witness :
  0 < 1 <= 2
  ∧ ∃ news1 news2,
      (get_stock_news (H := sample_runtime) "aapl" (Some "k") 1
         (world_of (fun _ => sample_time) (Responds (sample_response three_items))
            no_history) initial).1 = Return (NewsList news1)
      ∧ (get_stock_news (H := sample_runtime) "aapl" (Some "k") 2
         (world_of (fun _ => sample_time) (Responds (sample_response three_items))
            no_history) initial).1 = Return (NewsList news2)
      ∧ news1 `prefix_of` news2.
Proof.
  split; [lia|].
  apply (larger_target_extends (H := sample_runtime) "aapl" (Some "k") 1 2
           (world_of (fun _ => sample_time) (Responds (sample_response three_items))
              no_history)
           initial sample_request (sample_response three_items)
           [raw "A" "a"; raw "B" "b"; raw "C" "c"]).
  - apply sample_asked_of.
  - by split.
  - lia.
  - done.
Defined.
